(** * Flask demo services: [app.py] and [many_to_many_example.py]

    A shallow embedding of the two services of the repository.  The
    models ([User], [Post], [Tag], the [post_tags] bridge table), their
    [serialize_rules] and the route handlers are transcribed from the
    sources.  The services run on three libraries whose behaviour is
    part of the meaning of the handlers; the fragment the handlers use is
    given here as executable definitions:

    - the database: tables are lists of rows in insertion order, an
      integer primary key left unset receives one more than the largest
      key in the table (SQLite's rowid rule);
    - the ORM session: a handler works on a pending copy of the
      database, [commit] makes it durable, an aborted request leaves
      what was committed; relationships are loaded from the tables;
    - [SerializerMixin.to_dict]: every mapped attribute is a key,
      a negative rule [-a.b] cuts [b] below [a], and the rules of a
      nested model are merged in when that model is reached. *)

From Stdlib Require Import ZArith List String Ascii Bool Lia.
Import ListNotations.

Open Scope string_scope.
Open Scope list_scope.
Open Scope Z_scope.

Set Warnings "-register-all".

(** ** JSON values *)

(** An object is kept as the list of its entries in the order the
    serializer produced them; nothing below depends on that order. *)

Inductive json : Type :=
| JNull
| JInt (z : Z)
| JStr (s : string)
| JArr (items : list json)
| JObj (fields : list (string * json)).

(** [has_key k j]: some object inside [j], at any depth, has the key [k]. *)
Fixpoint has_key (k : string) (j : json) : bool :=
  match j with
  | JArr items => existsb (has_key k) items
  | JObj fields =>
      existsb (fun kv => let '(k', v) := kv in String.eqb k k' || has_key k v)
              fields
  | _ => false
  end.

(** Top-level field of an object. *)
Fixpoint assoc (k : string) (fields : list (string * json)) : option json :=
  match fields with
  | [] => None
  | (k', v) :: rest => if String.eqb k k' then Some v else assoc k rest
  end.

Definition field (k : string) (j : json) : option json :=
  match j with
  | JObj fields => assoc k fields
  | _ => None
  end.

(** ** HTTP responses *)

Inductive response : Type :=
| Json (status : Z) (body : json)   (* [return jsonify(body), status] *)
| HttpError (status : Z).           (* [abort(status)] or an uncaught exception *)

Definition status_of (r : response) : Z :=
  match r with
  | Json s _ => s
  | HttpError s => s
  end.

(** ** Primary keys *)

(** The largest key of a non-empty table, plus one; 1 on an empty table.
    (The rule of the database while the largest key is below the last
    64-bit value, which takes a row stored under an explicit id.) *)
Definition next_id (ids : list Z) : Z :=
  match ids with
  | [] => 1
  | i :: rest => 1 + fold_right Z.max i rest
  end.

(** An INTEGER column or parameter holds a signed 64-bit value. *)
Definition sqlite_integer (z : Z) : bool :=
  (- 2 ^ 63 <=? z) && (z <? 2 ^ 63).

(** No two entries of a key column are equal. *)
Fixpoint distinct {K : Type} (eqb : K -> K -> bool) (keys : list K) : bool :=
  match keys with
  | [] => true
  | k :: rest => negb (existsb (eqb k) rest) && distinct eqb rest
  end.

Definition unique (ids : list Z) : bool := distinct Z.eqb ids.

(** ** Serialize rules *)

(** [s.split(sep)] *)
Fixpoint split (sep : ascii) (s : string) : list string :=
  match s with
  | EmptyString => [EmptyString]
  | String c rest =>
      if Ascii.eqb c sep then EmptyString :: split sep rest
      else match split sep rest with
           | h :: t => String c h :: t
           | [] => [String c EmptyString]
           end
  end.

(** A rule is written ["-relation.nested"]; [split_dots] cuts the path. *)
Definition split_dots (s : string) : list string := split "."%char s.

(** A negative rule gives the path it cuts.  Every rule of the two
    services is negative; a rule without the leading minus is not a cut. *)
Definition parse_rule (s : string) : option (list string) :=
  match s with
  | String c rest => if Ascii.eqb c "-"%char then Some (split_dots rest) else None
  | EmptyString => None
  end.

(** The schema carried down the object graph: the paths still to cut. *)
Definition schema : Type := list (list string).

Definition schema_update (sch : schema) (extend : list string) : schema :=
  sch ++ flat_map (fun r => match parse_rule r with
                            | Some p => [p]
                            | None => []
                            end) extend.

Fixpoint path_eqb (p q : list string) : bool :=
  match p, q with
  | [], [] => true
  | a :: p', b :: q' => String.eqb a b && path_eqb p' q'
  | _, _ => false
  end.

(** A key is left out exactly when a path ends on it at this level. *)
Definition is_included (k : string) (sch : schema) : bool :=
  negb (existsb (path_eqb [k]) sch).

(** The schema below key [k]: the rest of every longer path through [k]. *)
Definition fork (k : string) (sch : schema) : schema :=
  flat_map (fun p => match p with
                     | k' :: (_ :: _) as rest => if String.eqb k k' then [rest] else []
                     | _ => []
                     end) sch.

(** ** SerializerMixin *)

(** What [getattr] finds under a mapped attribute. *)
Inductive attr (entity : Type) : Type :=
| Column (v : json)
| ToOne (e : option entity)
| ToMany (l : list entity).
Arguments Column {entity} v.
Arguments ToOne {entity} e.
Arguments ToMany {entity} l.

Class SerializerMixin (store entity : Type) : Type := {
  serialize_rules : entity -> list string;
  serializable_keys : entity -> list string;
  getattr : store -> entity -> string -> attr entity
}.

Fixpoint mapM {A B : Type} (f : A -> option B) (l : list A) : option (list B) :=
  match l with
  | [] => Some []
  | a :: rest =>
      match f a with
      | None => None
      | Some b => option_map (cons b) (mapM f rest)
      end
  end.

Section Serializer.
Context {store entity : Type} `{SerializerMixin store entity}.

(** [serialize_model]: merge the model's own rules, then walk its keys,
    descending into relationships with the forked schema.  [fuel] is the
    depth of nesting still allowed; [None] is the interpreter giving up
    on a reference cycle that no rule cuts. *)
Fixpoint serialize (fuel : nat) (st : store) (sch : schema) (e : entity)
  : option json :=
  match fuel with
  | O => None
  | S fuel' =>
      let sch' := schema_update sch (serialize_rules e) in
      option_map JObj
        (mapM (fun k =>
                 match getattr st e k with
                 | Column v => Some (k, v)
                 | ToOne None => Some (k, JNull)
                 | ToOne (Some e') =>
                     option_map (pair k) (serialize fuel' st (fork k sch') e')
                 | ToMany l =>
                     option_map (fun js => (k, JArr js))
                                (mapM (serialize fuel' st (fork k sch')) l)
                 end)
              (filter (fun k => is_included k sch') (serializable_keys e)))
  end.

(** Python's default recursion limit bounds the nesting. *)
Definition recursion_limit : nat := 1000.

Definition to_dict (st : store) (rules : list string) (e : entity) : option json :=
  serialize recursion_limit st (schema_update [] rules) e.
End Serializer.

(** ** The request-scoped session *)

Section Session.
Variable database : Type.

(** The session sees [pending]; [committed] is what the file holds. *)
Record session : Type := {
  committed : database;
  pending : database
}.

(** A handler step: a value, or the status of the failure that ends
    the request. *)
Definition M (A : Type) : Type := session -> (A + Z) * session.

Definition ret {A : Type} (a : A) : M A := fun s => (inl a, s).

Definition bind {A B : Type} (m : M A) (k : A -> M B) : M B :=
  fun s => match m s with
           | (inl a, s') => k a s'
           | (inr code, s') => (inr code, s')
           end.

Definition abort {A : Type} (code : Z) : M A := fun s => (inr code, s).

Definition gets {A : Type} (f : database -> A) : M A :=
  fun s => (inl (f (pending s)), s).

Definition modify (f : database -> database) : M unit :=
  fun s => (inl tt, {| committed := committed s; pending := f (pending s) |}).

(** [db.session.commit()] *)
Definition commit : M unit :=
  fun s => (inl tt, {| committed := pending s; pending := pending s |}).

(** [Model.query.get_or_404(id)] *)
Definition get_or_404 {A : Type} (q : M (option A)) : M A :=
  bind q (fun r => match r with
                   | Some a => ret a
                   | None => abort 404
                   end).

(** A failing lookup or serialization is an uncaught exception. *)
Definition or_500 {A : Type} (r : option A) : M A :=
  match r with
  | Some a => ret a
  | None => abort 500
  end.

(** One request: the session starts from the committed database and
    is dropped at the end; only what was committed remains. *)
Definition run (h : M response) (db : database) : response * database :=
  match h {| committed := db; pending := db |} with
  | (inl resp, s) => (resp, committed s)
  | (inr code, s) => (HttpError code, committed s)
  end.

(** What the database holds after any session script has run. *)
Definition committed_by {A : Type} (h : M A) (db : database) : database :=
  committed (snd (h {| committed := db; pending := db |})).
End Session.

Arguments committed {database} s.
Arguments pending {database} s.
Arguments ret {database A} a.
Arguments bind {database A B} m k.
Arguments abort {database A} code.
Arguments gets {database A} f.
Arguments modify {database} f.
Arguments commit {database}.
Arguments get_or_404 {database A} q.
Arguments or_500 {database A} r.
Arguments run {database} h db.
Arguments committed_by {database A} h db.

Notation "x <- m ;; k" := (bind m (fun x => k))
  (at level 61, m at next level, right associativity).
Notation "m ;;; k" := (bind m (fun _ => k))
  (at level 61, right associativity).

(** [data[key]] on the JSON object of a request body. *)
Fixpoint subscript (data : list (string * string)) (key : string) : option string :=
  match data with
  | [] => None
  | (k, v) :: rest => if String.eqb k key then Some v else subscript rest key
  end.

(** ** Relationship declarations *)

Record relationship : Type := {
  target : string;
  back_populates : string;
  secondary : option string;
  cascade : string
}.

(** The cascade of a relationship that declares none. *)
Definition default_cascade : string := "save-update, merge".

Fixpoint remove_spaces (s : string) : string :=
  match s with
  | EmptyString => EmptyString
  | String c rest =>
      if Ascii.eqb c " "%char then remove_spaces rest
      else String c (remove_spaces rest)
  end.

(** The options of a cascade string; [all] stands for every option but
    [delete-orphan], [delete] among them. *)
Definition cascade_options (c : string) : list string :=
  map remove_spaces (split ","%char c).

Definition cascades_delete (r : relationship) : bool :=
  existsb (fun o => String.eqb o "all" || String.eqb o "delete")
          (cascade_options (cascade r)).

(** ** Mapper metadata and relationship loading *)

(** What the mapper collects from the model classes and the tables, and
    how the stored rows are reached through it. *)
Class Mapper (store entity : Type) : Type := {
  class_of : entity -> string;
  tablename : string -> string;                     (* [__tablename__] of a class *)
  table_rows : store -> string -> list entity;      (* rows of a mapped table *)
  primary_key : entity -> Z;
  foreign_keys : string -> list (string * string);  (* table: column, table referred to *)
  column_value : entity -> string -> option Z;
  bridge_rows : store -> string -> list (list (string * Z));  (* rows of a table without a model *)
  relationship_named : string -> string -> option relationship  (* class, attribute *)
}.

Fixpoint cell (row : list (string * Z)) (column : string) : option Z :=
  match row with
  | [] => None
  | (c, v) :: rest => if String.eqb c column then Some v else cell rest column
  end.

Definition same_secondary (a b : option string) : bool :=
  match a, b with
  | Some x, Some y => String.eqb x y
  | None, None => true
  | _, _ => false
  end.

Section Relationships.
Context {store entity : Type} `{Mapper store entity}.

(** The column of [table] that is a foreign key to [referred]. *)
Definition fk_column (table referred : string) : option string :=
  option_map fst (find (fun c => String.eqb (snd c) referred) (foreign_keys table)).

(** Loading the attribute a relationship declares on the row [e].  With
    a [secondary] table the rows of the target are joined through it, on
    the columns that refer to the two tables; without one, the foreign
    key is on the row itself (the one related row) or on the target (all
    rows that refer to [e]). *)
Definition related (st : store) (r : relationship) (e : entity) : list entity :=
  let owner_table := tablename (class_of e) in
  let target_table := tablename (target r) in
  match secondary r with
  | Some bridge =>
      match fk_column bridge owner_table, fk_column bridge target_table with
      | Some oc, Some tc =>
          flat_map (fun row =>
                      match cell row oc, cell row tc with
                      | Some o, Some t =>
                          if o =? primary_key e
                          then filter (fun x => primary_key x =? t)
                                      (table_rows st target_table)
                          else []
                      | _, _ => []
                      end) (bridge_rows st bridge)
      | _, _ => []
      end
  | None =>
      match fk_column owner_table target_table with
      | Some c =>
          match column_value e c with
          | Some k =>
              match find (fun x => primary_key x =? k) (table_rows st target_table) with
              | Some x => [x]
              | None => []
              end
          | None => []
          end
      | None =>
          match fk_column target_table owner_table with
          | Some c =>
              filter (fun x => match column_value x c with
                               | Some k => k =? primary_key e
                               | None => false
                               end) (table_rows st target_table)
          | None => []
          end
      end
  end.

(** [back_populates] pairs two declarations: the attribute it names on
    the target class is a relationship back to this class, names this
    attribute in turn, and goes through the same [secondary] table. *)
Definition paired (class attribute : string) : bool :=
  match relationship_named class attribute with
  | Some r =>
      match relationship_named (target r) (back_populates r) with
      | Some r' =>
          String.eqb (target r') class
          && String.eqb (back_populates r') attribute
          && same_secondary (secondary r) (secondary r')
      | None => false
      end
  | None => false
  end.
End Relationships.

(** * Service 1: [app.py] *)

Module App.

(** ** Models *)

Module User.
Record t : Type := { id : Z; name : string }.
(** [posts = db.relationship("Post", back_populates="user",
    cascade="all, delete-orphan")] *)
Definition posts : relationship :=
  {| target := "Post"; back_populates := "user"; secondary := None;
     cascade := "all, delete-orphan" |}.
Definition serialize_rules : list string := ["-posts.user"].
End User.

Module Post.
Record t : Type := {
  id : Z;
  title : string;
  content : string;
  user_id : option Z   (* nullable foreign key to [users.id] *)
}.
(** [user = db.relationship("User", back_populates="posts")] *)
Definition user : relationship :=
  {| target := "User"; back_populates := "posts"; secondary := None;
     cascade := default_cascade |}.
Definition serialize_rules : list string := ["-user.posts"].
End Post.

Record database : Type := {
  users : list User.t;
  posts : list Post.t
}.

Definition empty : database := {| users := []; posts := [] |}.

Definition refers_to (uid : Z) (p : Post.t) : bool :=
  match Post.user_id p with
  | Some k => k =? uid
  | None => false
  end.

(** Loading [user.posts]: the posts whose foreign key is the user's id. *)
Definition load_posts (db : database) (u : User.t) : list Post.t :=
  filter (refers_to (User.id u)) (posts db).

(** Loading [post.user]: the user the foreign key names, if any. *)
Definition load_user (db : database) (p : Post.t) : option User.t :=
  match Post.user_id p with
  | Some k => find (fun u => User.id u =? k) (users db)
  | None => None
  end.

(** The schema's constraints: primary keys are unique and a foreign
    key that is set names a stored user. *)
Definition fk_ok (db : database) : bool :=
  forallb (fun p => match Post.user_id p with
                    | Some k => existsb (fun u => User.id u =? k) (users db)
                    | None => true
                    end) (posts db).

Definition wf (db : database) : bool :=
  unique (map User.id (users db)) && unique (map Post.id (posts db)) && fk_ok db.

(** ** Serialization *)

Inductive entity : Type :=
| EUser (u : User.t)
| EPost (p : Post.t).

Definition opt_int (o : option Z) : json :=
  match o with
  | Some z => JInt z
  | None => JNull
  end.

Definition entity_getattr (db : database) (e : entity) (k : string) : attr entity :=
  match e with
  | EUser u =>
      if String.eqb k "id" then Column (JInt (User.id u))
      else if String.eqb k "name" then Column (JStr (User.name u))
      else if String.eqb k "posts" then ToMany (map EPost (load_posts db u))
      else Column JNull
  | EPost p =>
      if String.eqb k "id" then Column (JInt (Post.id p))
      else if String.eqb k "title" then Column (JStr (Post.title p))
      else if String.eqb k "content" then Column (JStr (Post.content p))
      else if String.eqb k "user_id" then Column (opt_int (Post.user_id p))
      else if String.eqb k "user" then ToOne (option_map EUser (load_user db p))
      else Column JNull
  end.

#[global] Instance entity_serializer : SerializerMixin database entity := {
  serialize_rules e :=
    match e with
    | EUser _ => User.serialize_rules
    | EPost _ => Post.serialize_rules
    end;
  serializable_keys e :=
    match e with
    | EUser _ => ["id"; "name"; "posts"]
    | EPost _ => ["id"; "title"; "content"; "user_id"; "user"]
    end;
  getattr := entity_getattr
}.

(** ** Session operations *)

(** [new_user = User(name=...); db.session.add(new_user)]: the row is
    inserted with the next free id when the session is flushed. *)
Definition session_add_user (name : string) : M database User.t :=
  ids <- gets (fun db => map User.id (users db)) ;;
  let new_user := {| User.id := next_id ids; User.name := name |} in
  modify (fun db => {| users := users db ++ [new_user]; posts := posts db |}) ;;;
  ret new_user.

(** [db.session.delete(user)]: under a delete cascade the loaded
    [user.posts] are deleted by primary key, otherwise their foreign
    key is set to null; then the user row goes. *)
Definition session_delete_user (u : User.t) : M database unit :=
  children <- gets (fun db => map Post.id (load_posts db u)) ;;
  let is_child (p : Post.t) := existsb (Z.eqb (Post.id p)) children in
  modify (fun db =>
    {| users := filter (fun u' => negb (User.id u' =? User.id u)) (users db);
       posts := if cascades_delete User.posts
                then filter (fun p => negb (is_child p)) (posts db)
                else map (fun p => if is_child p
                                   then {| Post.id := Post.id p;
                                           Post.title := Post.title p;
                                           Post.content := Post.content p;
                                           Post.user_id := None |}
                                   else p) (posts db) |}).

(** ** Routes *)

(** [GET /users] *)
Definition get_users : M database response :=
  db <- gets (fun db => db) ;;
  bodies <- or_500 (mapM (fun u => to_dict db [] (EUser u)) (users db)) ;;
  ret (Json 200 (JArr bodies)).

(** [POST /users] *)
Definition create_user (data : list (string * string)) : M database response :=
  name <- or_500 (subscript data "name") ;;
  new_user <- session_add_user name ;;
  commit ;;;
  db <- gets (fun db => db) ;;
  body <- or_500 (to_dict db [] (EUser new_user)) ;;
  ret (Json 201 body).

(** Deleting a user through the session and committing. *)
Definition delete_user (u : User.t) : M database unit :=
  session_delete_user u ;;;
  commit.

(** [Post.query.filter_by(user_id=uid).all()] *)
Definition posts_by_user_id (db : database) (uid : Z) : list Post.t :=
  filter (refers_to uid) (posts db).

(** ** Back-references, for the statements below *)

(** [p in u.posts] exactly when [p.user is u], for stored rows. *)
Definition user_posts_symmetric (db : database) : Prop :=
  forall u p, In u (users db) -> In p (posts db) ->
    (In p (load_posts db u) <-> load_user db p = Some u).

(** ** Shapes of the serialized rows, for the statements below *)

Definition user_brief (u : User.t) : json :=
  JObj [("id", JInt (User.id u)); ("name", JStr (User.name u))].

Definition opt_user (o : option User.t) : json :=
  match o with
  | Some u => user_brief u
  | None => JNull
  end.

Definition post_brief (p : Post.t) : json :=
  JObj [("id", JInt (Post.id p)); ("title", JStr (Post.title p));
        ("content", JStr (Post.content p));
        ("user_id", opt_int (Post.user_id p))].

Definition post_dict (db : database) (p : Post.t) : json :=
  JObj [("id", JInt (Post.id p)); ("title", JStr (Post.title p));
        ("content", JStr (Post.content p));
        ("user_id", opt_int (Post.user_id p));
        ("user", opt_user (load_user db p))].

Definition user_dict (db : database) (u : User.t) : json :=
  JObj [("id", JInt (User.id u)); ("name", JStr (User.name u));
        ("posts", JArr (map post_brief (load_posts db u)))].

(** The user and the post of the other service's [__main__] block,
    as rows of this service. *)
Definition demo : database :=
  {| users := [{| User.id := 1; User.name := "John Doe" |}];
     posts := [{| Post.id := 1; Post.title := "My First Post";
                  Post.content := "Hello World!"; Post.user_id := Some 1 |}] |}.

Definition john : User.t := {| User.id := 1; User.name := "John Doe" |}.
Definition first_post : Post.t :=
  {| Post.id := 1; Post.title := "My First Post";
     Post.content := "Hello World!"; Post.user_id := Some 1 |}.

(** ** The mapper of the service *)

#[global] Instance mapper : Mapper database entity := {
  class_of e :=
    match e with
    | EUser _ => "User"
    | EPost _ => "Post"
    end;
  tablename c :=
    if String.eqb c "User" then "users"
    else if String.eqb c "Post" then "posts"
    else "";
  table_rows db t :=
    if String.eqb t "users" then map EUser (users db)
    else if String.eqb t "posts" then map EPost (posts db)
    else [];
  primary_key e :=
    match e with
    | EUser u => User.id u
    | EPost p => Post.id p
    end;
  foreign_keys t :=
    if String.eqb t "posts" then [("user_id", "users")] else [];
  column_value e c :=
    match e with
    | EUser u => if String.eqb c "id" then Some (User.id u) else None
    | EPost p =>
        if String.eqb c "id" then Some (Post.id p)
        else if String.eqb c "user_id" then Post.user_id p
        else None
    end;
  bridge_rows _ _ := [];
  relationship_named c a :=
    if String.eqb c "User" && String.eqb a "posts" then Some User.posts
    else if String.eqb c "Post" && String.eqb a "user" then Some Post.user
    else None
}.

Definition declarations_paired : bool :=
  paired (H := mapper) "User" "posts" && paired (H := mapper) "Post" "user".

(** [p in u.posts] exactly when [p.user is u], for stored rows, through
    the declared relationships. *)
Definition user_posts_paired (db : database) : Prop :=
  forall u p, In u (users db) -> In p (posts db) ->
    (In (EPost p) (related db User.posts (EUser u))
     <-> related db Post.user (EPost p) = [EUser u]).

(** ** The service as a whole *)

(** A request, once the URL map has matched it to a view function. *)
Inductive request : Type :=
| GET_users
| POST_users (data : list (string * string)).

Definition route (r : request) : M database response :=
  match r with
  | GET_users => get_users
  | POST_users data => create_user data
  end.

(** Requests served one after the other, each in a session of its own. *)
Fixpoint serve_all (rs : list request) (db : database) : database :=
  match rs with
  | [] => db
  | r :: rest => serve_all rest (snd (run (route r) db))
  end.

End App.


(** * Service 2: [many_to_many_example.py] *)

Module ManyToMany.

(** ** Models *)

Module Tag.
Record t : Type := { id : Z; name : string }.
(** [posts = db.relationship('Post', secondary=post_tags,
    back_populates='tags')] *)
Definition posts : relationship :=
  {| target := "Post"; back_populates := "tags";
     secondary := Some "post_tags"; cascade := default_cascade |}.
(** Every [serialize_rules] line of the class is a comment, so the
    mixin's default, no rule, is in force. *)
Definition serialize_rules : list string := [].
End Tag.

Module Post.
Record t : Type := {
  id : Z;
  title : string;
  content : string;
  user_id : option Z
}.
Definition user : relationship :=
  {| target := "User"; back_populates := "posts"; secondary := None;
     cascade := default_cascade |}.
(** [tags = db.relationship('Tag', secondary=post_tags,
    back_populates='posts')] *)
Definition tags : relationship :=
  {| target := "Tag"; back_populates := "posts";
     secondary := Some "post_tags"; cascade := default_cascade |}.
Definition serialize_rules : list string := ["-user.posts"; "-tags.posts"].
End Post.

Module User.
Record t : Type := { id : Z; name : string }.
Definition posts : relationship :=
  {| target := "Post"; back_populates := "user"; secondary := None;
     cascade := "all, delete-orphan" |}.
Definition serialize_rules : list string := ["-posts.user"].
End User.

(** [post_tags] is the bridge table: rows [(post_id, tag_id)]. *)
Record database : Type := {
  users : list User.t;
  posts : list Post.t;
  tags : list Tag.t;
  post_tags : list (Z * Z)
}.

Definition empty : database :=
  {| users := []; posts := []; tags := []; post_tags := [] |}.

Definition refers_to (uid : Z) (p : Post.t) : bool :=
  match Post.user_id p with
  | Some k => k =? uid
  | None => false
  end.

Definition link_eqb (a b : Z * Z) : bool :=
  (fst a =? fst b) && (snd a =? snd b).

(** Loading [user.posts] and [post.user]. *)
Definition load_posts (db : database) (u : User.t) : list Post.t :=
  filter (refers_to (User.id u)) (posts db).

Definition load_user (db : database) (p : Post.t) : option User.t :=
  match Post.user_id p with
  | Some k => find (fun u => User.id u =? k) (users db)
  | None => None
  end.

(** Loading [post.tags]: the join of [post_tags] with [tags] on the
    tag id, restricted to the post.  The rows are listed in the order of
    the bridge table; the database may hand them over in another order. *)
Definition load_tags (db : database) (pid : Z) : list Tag.t :=
  flat_map (fun l => if fst l =? pid
                     then filter (fun t => Tag.id t =? snd l) (tags db)
                     else []) (post_tags db).

(** Loading [tag.posts]: the join of [post_tags] with [posts]. *)
Definition load_tag_posts (db : database) (tid : Z) : list Post.t :=
  flat_map (fun l => if snd l =? tid
                     then filter (fun p => Post.id p =? fst l) (posts db)
                     else []) (post_tags db).

(** [tag in post.tags]: instances are compared by identity, and the
    session holds one instance per primary key. *)
Definition tag_in (tag : Tag.t) (l : list Tag.t) : bool :=
  existsb (fun t => Tag.id t =? Tag.id tag) l.

Definition unique_links (l : list (Z * Z)) : bool := distinct link_eqb l.

Definition unique_names (l : list string) : bool := distinct String.eqb l.

(** The schema's constraints: primary keys (simple and composite),
    the unique tag name, and the three foreign keys. *)
Definition fk_ok (db : database) : bool :=
  forallb (fun p => match Post.user_id p with
                    | Some k => existsb (fun u => User.id u =? k) (users db)
                    | None => true
                    end) (posts db)
  && forallb (fun l => existsb (fun p => Post.id p =? fst l) (posts db)
                       && existsb (fun t => Tag.id t =? snd l) (tags db))
             (post_tags db).

Definition wf (db : database) : bool :=
  unique (map User.id (users db))
  && unique (map Post.id (posts db))
  && unique (map Tag.id (tags db))
  && unique_names (map Tag.name (tags db))
  && unique_links (post_tags db)
  && fk_ok db.

(** ** Serialization *)

Inductive entity : Type :=
| EUser (u : User.t)
| EPost (p : Post.t)
| ETag (t : Tag.t).

Definition opt_int (o : option Z) : json :=
  match o with
  | Some z => JInt z
  | None => JNull
  end.

Definition entity_getattr (db : database) (e : entity) (k : string) : attr entity :=
  match e with
  | EUser u =>
      if String.eqb k "id" then Column (JInt (User.id u))
      else if String.eqb k "name" then Column (JStr (User.name u))
      else if String.eqb k "posts" then ToMany (map EPost (load_posts db u))
      else Column JNull
  | EPost p =>
      if String.eqb k "id" then Column (JInt (Post.id p))
      else if String.eqb k "title" then Column (JStr (Post.title p))
      else if String.eqb k "content" then Column (JStr (Post.content p))
      else if String.eqb k "user_id" then Column (opt_int (Post.user_id p))
      else if String.eqb k "user" then ToOne (option_map EUser (load_user db p))
      else if String.eqb k "tags" then ToMany (map ETag (load_tags db (Post.id p)))
      else Column JNull
  | ETag t =>
      if String.eqb k "id" then Column (JInt (Tag.id t))
      else if String.eqb k "name" then Column (JStr (Tag.name t))
      else if String.eqb k "posts" then ToMany (map EPost (load_tag_posts db (Tag.id t)))
      else Column JNull
  end.

#[global] Instance entity_serializer : SerializerMixin database entity := {
  serialize_rules e :=
    match e with
    | EUser _ => User.serialize_rules
    | EPost _ => Post.serialize_rules
    | ETag _ => Tag.serialize_rules
    end;
  serializable_keys e :=
    match e with
    | EUser _ => ["id"; "name"; "posts"]
    | EPost _ => ["id"; "title"; "content"; "user_id"; "user"; "tags"]
    | ETag _ => ["id"; "name"; "posts"]
    end;
  getattr := entity_getattr
}.

(** ** Session operations *)

(** [Post.query.get(post_id)], [Tag.query.get(tag_id)]: the row with
    that primary key, if there is one.  The id travels to the database
    as an INTEGER parameter: a value outside the signed 64-bit range,
    which no stored key has, is refused by the driver with an
    OverflowError, an uncaught exception. *)
Definition post_query_get (post_id : Z) : M database (option Post.t) :=
  found <- gets (fun db => find (fun p => Post.id p =? post_id) (posts db)) ;;
  match found with
  | Some post => ret (Some post)
  | None => if sqlite_integer post_id then ret None else abort 500
  end.

Definition tag_query_get (tag_id : Z) : M database (option Tag.t) :=
  found <- gets (fun db => find (fun t => Tag.id t =? tag_id) (tags db)) ;;
  match found with
  | Some tag => ret (Some tag)
  | None => if sqlite_integer tag_id then ret None else abort 500
  end.

(** [Tag.query.filter_by(name=...).first()] *)
Definition tag_query_filter_by_name_first (name : string)
  : M database (option Tag.t) :=
  gets (fun db => find (fun t => String.eqb (Tag.name t) name) (tags db)).

(** Row-level changes to the tables. *)
Definition insert_tag (tag : Tag.t) (db : database) : database :=
  {| users := users db; posts := posts db;
     tags := tags db ++ [tag];
     post_tags := post_tags db |}.

Definition insert_link (link : Z * Z) (db : database) : database :=
  {| users := users db; posts := posts db; tags := tags db;
     post_tags := post_tags db ++ [link] |}.

Definition delete_link (link : Z * Z) (db : database) : database :=
  {| users := users db; posts := posts db; tags := tags db;
     post_tags := filter (fun l => negb (link_eqb link l)) (post_tags db) |}.

(** [tag = Tag(name=...); db.session.add(tag)]: flushed before the next
    load, the row takes the next free id; a second row with the same
    name violates the unique constraint. *)
Definition session_add_tag (name : string) : M database Tag.t :=
  taken <- gets (fun db => existsb (fun t => String.eqb (Tag.name t) name) (tags db)) ;;
  if taken : bool then abort 500
  else
    ids <- gets (fun db => map Tag.id (tags db)) ;;
    let tag := {| Tag.id := next_id ids; Tag.name := name |} in
    modify (insert_tag tag) ;;;
    ret tag.

(** [post.tags] *)
Definition post_tags_of (post : Post.t) : M database (list Tag.t) :=
  gets (fun db => load_tags db (Post.id post)).

(** [post.tags.append(tag)]: one row for the bridge table; the
    composite primary key refuses a row that is already there. *)
Definition post_tags_append (post : Post.t) (tag : Tag.t) : M database unit :=
  let link := (Post.id post, Tag.id tag) in
  present <- gets (fun db => existsb (link_eqb link) (post_tags db)) ;;
  if present : bool then abort 500
  else modify (insert_link link).

(** [post.tags.remove(tag)]: the bridge row of the pair is deleted. *)
Definition post_tags_remove (post : Post.t) (tag : Tag.t) : M database unit :=
  modify (delete_link (Post.id post, Tag.id tag)).

(** [post.to_dict()] on the reloaded instance *)
Definition post_to_dict (post : Post.t) : M database json :=
  db <- gets (fun db => db) ;;
  or_500 (to_dict db [] (EPost post)).

(** [db.session.delete(user)] under the cascade of [User.posts]; a
    deleted post also loses its rows in the bridge table. *)
Definition session_delete_user (u : User.t) : M database unit :=
  children <- gets (fun db => map Post.id (load_posts db u)) ;;
  let is_child (p : Post.t) := existsb (Z.eqb (Post.id p)) children in
  modify (fun db =>
    if cascades_delete User.posts
    then {| users := filter (fun u' => negb (User.id u' =? User.id u)) (users db);
            posts := filter (fun p => negb (is_child p)) (posts db);
            tags := tags db;
            post_tags := filter (fun l => negb (existsb (Z.eqb (fst l)) children))
                                (post_tags db) |}
    else {| users := filter (fun u' => negb (User.id u' =? User.id u)) (users db);
            posts := map (fun p => if is_child p
                                   then {| Post.id := Post.id p;
                                           Post.title := Post.title p;
                                           Post.content := Post.content p;
                                           Post.user_id := None |}
                                   else p) (posts db);
            tags := tags db;
            post_tags := post_tags db |}).

(** ** Routes *)

(** [POST /posts/<int:post_id>/tags] *)
Definition add_tag_to_post (post_id : Z) (data : list (string * string))
  : M database response :=
  post <- get_or_404 (post_query_get post_id) ;;
  tag_name <- or_500 (subscript data "tag_name") ;;
  found <- tag_query_filter_by_name_first tag_name ;;
  tag <- match found with
         | Some tag => ret tag
         | None => session_add_tag tag_name
         end ;;
  post_tags <- post_tags_of post ;;
  (if tag_in tag post_tags then ret tt else post_tags_append post tag) ;;;
  commit ;;;
  body <- post_to_dict post ;;
  ret (Json 200 body).

(** [DELETE /posts/<int:post_id>/tags/<int:tag_id>] *)
Definition remove_tag_from_post (post_id tag_id : Z) : M database response :=
  post <- get_or_404 (post_query_get post_id) ;;
  tag <- get_or_404 (tag_query_get tag_id) ;;
  post_tags <- post_tags_of post ;;
  (if tag_in tag post_tags then post_tags_remove post tag else ret tt) ;;;
  commit ;;;
  body <- post_to_dict post ;;
  ret (Json 200 body).

(** [GET /tags] *)
Definition get_tags : M database response :=
  db <- gets (fun db => db) ;;
  bodies <- or_500 (mapM (fun t => to_dict db [] (ETag t)) (tags db)) ;;
  ret (Json 200 (JArr bodies)).

(** [GET /posts] *)
Definition get_posts : M database response :=
  db <- gets (fun db => db) ;;
  bodies <- or_500 (mapM (fun p => to_dict db [] (EPost p)) (posts db)) ;;
  ret (Json 200 (JArr bodies)).

(** Deleting a user through the session and committing. *)
Definition delete_user (u : User.t) : M database unit :=
  session_delete_user u ;;;
  commit.

(** [Post.query.filter_by(user_id=uid).all()] *)
Definition posts_by_user_id (db : database) (uid : Z) : list Post.t :=
  filter (refers_to uid) (posts db).

(** ** Shapes of the serialized rows, for the statements below *)

Definition tag_brief (t : Tag.t) : json :=
  JObj [("id", JInt (Tag.id t)); ("name", JStr (Tag.name t))].

Definition user_brief (u : User.t) : json :=
  JObj [("id", JInt (User.id u)); ("name", JStr (User.name u))].

Definition opt_user (o : option User.t) : json :=
  match o with
  | Some u => user_brief u
  | None => JNull
  end.

Definition post_dict (db : database) (p : Post.t) : json :=
  JObj [("id", JInt (Post.id p)); ("title", JStr (Post.title p));
        ("content", JStr (Post.content p));
        ("user_id", opt_int (Post.user_id p));
        ("user", opt_user (load_user db p));
        ("tags", JArr (map tag_brief (load_tags db (Post.id p))))].

(** A post below a tag whose [tags] are cut by [-posts.tags]. *)
Definition post_without_tags (db : database) (p : Post.t) : json :=
  JObj [("id", JInt (Post.id p)); ("title", JStr (Post.title p));
        ("content", JStr (Post.content p));
        ("user_id", opt_int (Post.user_id p));
        ("user", opt_user (load_user db p))].

Definition tag_dict (db : database) (t : Tag.t) : json :=
  JObj [("id", JInt (Tag.id t)); ("name", JStr (Tag.name t));
        ("posts", JArr (map (post_dict db) (load_tag_posts db (Tag.id t))))].

(** ** Back-references, for the statements below *)

(** [t in p.tags] exactly when [p in t.posts], for stored rows. *)
Definition tags_posts_symmetric (db : database) : Prop :=
  forall p t, In p (posts db) -> In t (tags db) ->
    (In t (load_tags db (Post.id p)) <-> In p (load_tag_posts db (Tag.id t))).

(** [p in u.posts] exactly when [p.user is u], for stored rows. *)
Definition user_posts_symmetric (db : database) : Prop :=
  forall u p, In u (users db) -> In p (posts db) ->
    (In p (load_posts db u) <-> load_user db p = Some u).

(** The data of the module's [__main__] block, once committed. *)
Definition demo : database :=
  {| users := [{| User.id := 1; User.name := "John Doe" |}];
     posts := [{| Post.id := 1; Post.title := "My First Post";
                  Post.content := "Hello World!"; Post.user_id := Some 1 |}];
     tags := [{| Tag.id := 1; Tag.name := "beginner" |};
              {| Tag.id := 2; Tag.name := "tutorial" |}];
     post_tags := [(1, 1); (1, 2)] |}.

Definition john : User.t := {| User.id := 1; User.name := "John Doe" |}.
Definition first_post : Post.t :=
  {| Post.id := 1; Post.title := "My First Post";
     Post.content := "Hello World!"; Post.user_id := Some 1 |}.
Definition beginner : Tag.t := {| Tag.id := 1; Tag.name := "beginner" |}.

(** The rows of [demonstrate_serialize_rules], with ids in the order
    of creation: posts 1 and 2, tags Python, Flask and SQLAlchemy. *)
Definition demonstration : database :=
  {| users := [];
     posts := [{| Post.id := 1; Post.title := "Flask Tutorial";
                  Post.content := "Learn Flask..."; Post.user_id := None |};
               {| Post.id := 2; Post.title := "SQLAlchemy Guide";
                  Post.content := "Learn SQLAlchemy..."; Post.user_id := None |}];
     tags := [{| Tag.id := 1; Tag.name := "Python" |};
              {| Tag.id := 2; Tag.name := "Flask" |};
              {| Tag.id := 3; Tag.name := "SQLAlchemy" |}];
     post_tags := [(1, 1); (1, 2); (2, 1); (2, 3)] |}.

Definition flask_tutorial : Post.t :=
  {| Post.id := 1; Post.title := "Flask Tutorial";
     Post.content := "Learn Flask..."; Post.user_id := None |}.
Definition sqlalchemy : Tag.t := {| Tag.id := 3; Tag.name := "SQLAlchemy" |}.

(** A post below a user: [-posts.user] cuts the way back. *)
Definition post_under_user (db : database) (p : Post.t) : json :=
  JObj [("id", JInt (Post.id p)); ("title", JStr (Post.title p));
        ("content", JStr (Post.content p));
        ("user_id", opt_int (Post.user_id p));
        ("tags", JArr (map tag_brief (load_tags db (Post.id p))))].

Definition user_dict (db : database) (u : User.t) : json :=
  JObj [("id", JInt (User.id u)); ("name", JStr (User.name u));
        ("posts", JArr (map (post_under_user db) (load_posts db u)))].

(** ** The mapper of the service *)

#[global] Instance mapper : Mapper database entity := {
  class_of e :=
    match e with
    | EUser _ => "User"
    | EPost _ => "Post"
    | ETag _ => "Tag"
    end;
  tablename c :=
    if String.eqb c "User" then "users"
    else if String.eqb c "Post" then "posts"
    else if String.eqb c "Tag" then "tags"
    else "";
  table_rows db t :=
    if String.eqb t "users" then map EUser (users db)
    else if String.eqb t "posts" then map EPost (posts db)
    else if String.eqb t "tags" then map ETag (tags db)
    else [];
  primary_key e :=
    match e with
    | EUser u => User.id u
    | EPost p => Post.id p
    | ETag t => Tag.id t
    end;
  foreign_keys t :=
    if String.eqb t "posts" then [("user_id", "users")]
    else if String.eqb t "post_tags" then [("post_id", "posts"); ("tag_id", "tags")]
    else [];
  column_value e c :=
    match e with
    | EUser u => if String.eqb c "id" then Some (User.id u) else None
    | EPost p =>
        if String.eqb c "id" then Some (Post.id p)
        else if String.eqb c "user_id" then Post.user_id p
        else None
    | ETag t => if String.eqb c "id" then Some (Tag.id t) else None
    end;
  bridge_rows db t :=
    if String.eqb t "post_tags"
    then map (fun l => [("post_id", fst l); ("tag_id", snd l)]) (post_tags db)
    else [];
  relationship_named c a :=
    if String.eqb c "Tag" && String.eqb a "posts" then Some Tag.posts
    else if String.eqb c "Post" && String.eqb a "user" then Some Post.user
    else if String.eqb c "Post" && String.eqb a "tags" then Some Post.tags
    else if String.eqb c "User" && String.eqb a "posts" then Some User.posts
    else None
}.

Definition declarations_paired : bool :=
  paired (H := mapper) "Post" "tags" && paired (H := mapper) "Tag" "posts"
  && paired (H := mapper) "User" "posts" && paired (H := mapper) "Post" "user".

(** [t in p.tags] exactly when [p in t.posts], for stored rows, through
    the declared relationships. *)
Definition tags_posts_paired (db : database) : Prop :=
  forall p t, In p (posts db) -> In t (tags db) ->
    (In (ETag t) (related db Post.tags (EPost p))
     <-> In (EPost p) (related db Tag.posts (ETag t))).

(** [p in u.posts] exactly when [p.user is u], for stored rows, through
    the declared relationships. *)
Definition user_posts_paired (db : database) : Prop :=
  forall u p, In u (users db) -> In p (posts db) ->
    (In (EPost p) (related db User.posts (EUser u))
     <-> related db Post.user (EPost p) = [EUser u]).

(** ** The service as a whole *)

(** A request, once the URL map has matched it to a view function. *)
Inductive request : Type :=
| POST_post_tags (post_id : Z) (data : list (string * string))
| DELETE_post_tag (post_id tag_id : Z)
| GET_tags
| GET_posts.

Definition route (r : request) : M database response :=
  match r with
  | POST_post_tags post_id data => add_tag_to_post post_id data
  | DELETE_post_tag post_id tag_id => remove_tag_from_post post_id tag_id
  | GET_tags => get_tags
  | GET_posts => get_posts
  end.

(** Requests served one after the other, each in a session of its own. *)
Fixpoint serve_all (rs : list request) (db : database) : database :=
  match rs with
  | [] => db
  | r :: rest => serve_all rest (snd (run (route r) db))
  end.

End ManyToMany.

(** * Properties *)

(** ** Lists and keys *)

Section Keys.
Context {A K : Type} (key : A -> K) (eqb : K -> K -> bool).
Hypothesis eqb_eq : forall a b, eqb a b = true <-> a = b.

Lemma existsb_key_false (k : K) (l : list A) :
  existsb (fun x => eqb (key x) k) l = false <->
  (forall x, In x l -> key x <> k).
Proof.
  split.
  - intros Hex x Hin Hk.
    assert (existsb (fun x => eqb (key x) k) l = true) as Ht.
    { apply existsb_exists. exists x. split; [assumption|]. now apply eqb_eq. }
    congruence.
  - intros Hall. destruct (existsb _ l) eqn:Hex; [|reflexivity].
    apply existsb_exists in Hex as (x & Hin & Hk).
    apply eqb_eq in Hk. now elim (Hall x Hin).
Qed.

Lemma find_key_none (k : K) (l : list A) :
  find (fun x => eqb (key x) k) l = None <->
  (forall x, In x l -> key x <> k).
Proof.
  split.
  - intros Hf x Hin Hk.
    apply (find_none _ _ Hf) in Hin. apply eqb_eq in Hk. congruence.
  - intros Hall. destruct (find _ l) as [x|] eqn:Hf; [|reflexivity].
    apply find_some in Hf as [Hin Hk]. apply eqb_eq in Hk.
    now elim (Hall x Hin).
Qed.

Lemma find_key_some (k : K) (l : list A) (x : A) :
  find (fun x => eqb (key x) k) l = Some x -> In x l /\ key x = k.
Proof.
  intros Hf. apply find_some in Hf as [Hin Hk]. split; [assumption|].
  now apply eqb_eq.
Qed.

Lemma distinct_in (l : list K) (k : K) :
  distinct eqb (k :: l) = true -> ~ In k l.
Proof.
  simpl. intros Hd Hin. apply andb_prop in Hd as [Hn _].
  apply negb_true_iff in Hn.
  assert (existsb (eqb k) l = true) as Ht.
  { apply existsb_exists. exists k. split; [assumption|]. now apply eqb_eq. }
  congruence.
Qed.

(** Under a unique key, looking a stored row up by its key finds it. *)
Lemma find_distinct (l : list A) (x : A) :
  distinct eqb (map key l) = true -> In x l ->
  find (fun y => eqb (key y) (key x)) l = Some x.
Proof.
  induction l as [|a l IH]; intros Hd Hin; [contradiction|].
  simpl. destruct (eqb (key a) (key x)) eqn:Hk.
  - apply eqb_eq in Hk. destruct Hin as [->|Hin]; [reflexivity|].
    exfalso. apply (distinct_in _ _ Hd). rewrite Hk. now apply in_map.
  - destruct Hin as [->|Hin].
    + assert (eqb (key x) (key x) = true) by now apply eqb_eq. congruence.
    + apply IH; [|assumption]. simpl in Hd. now apply andb_prop in Hd as [_ Hd].
Qed.

Lemma distinct_NoDup (l : list K) : distinct eqb l = true -> NoDup l.
Proof.
  induction l as [|k l IH]; intros Hd; constructor.
  - now apply distinct_in.
  - apply IH. simpl in Hd. now apply andb_prop in Hd as [_ Hd].
Qed.

(** Under a unique key, two stored rows with the same key are one row. *)
Lemma distinct_inj (l : list A) (x y : A) :
  distinct eqb (map key l) = true -> In x l -> In y l -> key x = key y -> x = y.
Proof.
  intros Hd Hx Hy Hk.
  pose proof (find_distinct l x Hd Hx) as Fx.
  pose proof (find_distinct l y Hd Hy) as Fy.
  rewrite Hk in Fx. congruence.
Qed.
End Keys.

Lemma Zeqb_eq (a b : Z) : (a =? b) = true <-> a = b.
Proof. apply Z.eqb_eq. Qed.

Lemma next_id_fresh (ids : list Z) : forall i, In i ids -> i < next_id ids.
Proof.
  destruct ids as [|a rest]; [contradiction|].
  unfold next_id. revert a.
  induction rest as [|b rest IH]; intros a i Hin; cbn [fold_right In] in *.
  - destruct Hin as [->|[]]. lia.
  - destruct Hin as [->|Hin].
    + specialize (IH i i (or_introl eq_refl)). lia.
    + destruct Hin as [->|Hin].
      * lia.
      * specialize (IH a i (or_intror Hin)). lia.
Qed.

Lemma distinct_snoc {K : Type} (eqb : K -> K -> bool) (l : list K) (x : K) :
  distinct eqb (l ++ [x]) = distinct eqb l && negb (existsb (fun k => eqb k x) l).
Proof.
  induction l as [|k l IH]; cbn [app distinct existsb]; [reflexivity|].
  rewrite IH, existsb_app. cbn [existsb].
  rewrite orb_false_r, !negb_orb.
  destruct (existsb (eqb k) l), (eqb k x), (distinct eqb l); reflexivity.
Qed.

Lemma find_snoc_new {A : Type} (f : A -> bool) (l : list A) (x : A) :
  find f l = None -> f x = true -> find f (l ++ [x]) = Some x.
Proof.
  induction l as [|a l IH]; cbn [app find]; intros Hl Hx.
  - now rewrite Hx.
  - destruct (f a); [discriminate|]. now apply IH.
Qed.

Lemma filter_nothing {A : Type} (f : A -> bool) (l : list A) :
  (forall x, In x l -> f x = false) -> filter f l = [].
Proof.
  induction l as [|a l IH]; intros Hf; cbn [filter]; [reflexivity|].
  rewrite (Hf a (or_introl eq_refl)). apply IH. intros x Hx. apply Hf. now right.
Qed.

Lemma distinct_filter {K : Type} (eqb : K -> K -> bool) (f : K -> bool) (l : list K) :
  distinct eqb l = true -> distinct eqb (filter f l) = true.
Proof.
  induction l as [|k l IH]; cbn [distinct filter]; intros Hd; [reflexivity|].
  apply andb_true_iff in Hd as [Hk Hd]. specialize (IH Hd).
  destruct (f k); [|assumption].
  cbn [distinct]. apply andb_true_iff. split; [|assumption].
  apply negb_true_iff. apply negb_true_iff in Hk.
  destruct (existsb (eqb k) (filter f l)) eqn:Hex; [|reflexivity].
  apply existsb_exists in Hex as (x & Hx & Hkx). apply filter_In in Hx as [Hx _].
  rewrite <- Hk. symmetry. apply existsb_exists. now exists x.
Qed.

Lemma existsb_snoc_keeps {A : Type} (f : A -> bool) (l : list A) (x : A) :
  existsb f l = true -> existsb f (l ++ [x]) = true.
Proof. intros Hl. rewrite existsb_app, Hl. reflexivity. Qed.

Lemma next_id_not_in (ids : list Z) : ~ In (next_id ids) ids.
Proof. intros Hin. apply next_id_fresh in Hin. lia. Qed.

Lemma unique_snoc_next_id (ids : list Z) :
  unique ids = true -> unique (ids ++ [next_id ids]) = true.
Proof.
  intros Hu. unfold unique. rewrite distinct_snoc.
  apply andb_true_iff. split; [assumption|].
  apply negb_true_iff. destruct (existsb _ ids) eqn:Hex; [|reflexivity].
  apply existsb_exists in Hex as (k & Hin & Hk). apply Z.eqb_eq in Hk. subst k.
  now apply next_id_not_in in Hin.
Qed.

(** ** Serialization, level by level *)

Lemma mapM_map_total {A B : Type} (f : A -> option B) (g : A -> B) (l : list A) :
  (forall a, In a l -> f a = Some (g a)) -> mapM f l = Some (map g l).
Proof.
  induction l as [|a l IH]; intros Hf; simpl.
  - reflexivity.
  - rewrite (Hf a (or_introl eq_refl)), IH by (intros; apply Hf; now right).
    reflexivity.
Qed.

Lemma mapM_map {A B C : Type} (f : B -> option C) (g : A -> B) (l : list A) :
  mapM f (map g l) = mapM (fun a => f (g a)) l.
Proof.
  induction l as [|a l IH]; simpl; [reflexivity|].
  now rewrite IH.
Qed.

Lemma serialize_S {store entity : Type} `{SerializerMixin store entity}
      (n : nat) (st : store) (sch : schema) (e : entity) :
  serialize (S n) st sch e =
  let sch' := schema_update sch (serialize_rules e) in
  option_map JObj
    (mapM (fun k =>
             match getattr st e k with
             | Column v => Some (k, v)
             | ToOne None => Some (k, JNull)
             | ToOne (Some e') =>
                 option_map (pair k) (serialize n st (fork k sch') e')
             | ToMany l =>
                 option_map (fun js => (k, JArr js))
                            (mapM (serialize n st (fork k sch')) l)
             end)
          (filter (fun k => is_included k sch') (serializable_keys e))).
Proof. reflexivity. Qed.

(** Rewrites a [mapM] over loaded rows whose serialization is known. *)
Ltac rows_total shape lem :=
  rewrite mapM_map, (mapM_map_total _ shape) by (intros; apply lem).

(** ** Serialization in service 1 *)

Module AppFacts.
Import App.

Lemma serialize_app_user_cut (n : nat) (db : database) (u : User.t) :
  serialize (S n) db [["posts"]] (EUser u) = Some (user_brief u).
Proof. reflexivity. Qed.

Lemma serialize_app_post_cut (n : nat) (db : database) (p : Post.t) :
  serialize (S n) db [["user"]] (EPost p) = Some (post_brief p).
Proof. reflexivity. Qed.

Lemma serialize_app_post (n : nat) (db : database) (p : Post.t) :
  serialize (S (S n)) db [] (EPost p) = Some (post_dict db p).
Proof.
  rewrite serialize_S.
  cbn -[serialize load_user].
  unfold post_dict.
  destruct (load_user db p) as [u|]; cbn -[serialize].
  - now rewrite serialize_app_user_cut.
  - reflexivity.
Qed.

Lemma serialize_app_user (n : nat) (db : database) (u : User.t) :
  serialize (S (S n)) db [] (EUser u) = Some (user_dict db u).
Proof.
  rewrite serialize_S.
  cbn -[serialize load_posts].
  rows_total post_brief serialize_app_post_cut.
  reflexivity.
Qed.

Lemma to_dict_app_post (db : database) (p : Post.t) :
  to_dict db [] (EPost p) = Some (post_dict db p).
Proof. exact (serialize_app_post 998 db p). Qed.

Lemma to_dict_app_user (db : database) (u : User.t) :
  to_dict db [] (EUser u) = Some (user_dict db u).
Proof. exact (serialize_app_user 998 db u). Qed.
End AppFacts.

(** ** Serialization in service 2 *)

Module ManyToManyFacts.
Import ManyToMany.

Lemma serialize_tag_cut (n : nat) (db : database) (t : Tag.t) :
  serialize (S n) db [["posts"]] (ETag t) = Some (tag_brief t).
Proof. reflexivity. Qed.

Lemma serialize_user_cut (n : nat) (db : database) (u : User.t) :
  serialize (S n) db [["posts"]] (EUser u) = Some (user_brief u).
Proof. reflexivity. Qed.

Lemma serialize_post (n : nat) (db : database) (p : Post.t) :
  serialize (S (S n)) db [] (EPost p) = Some (post_dict db p).
Proof.
  rewrite serialize_S.
  cbn -[serialize load_tags load_user].
  rows_total tag_brief serialize_tag_cut.
  unfold post_dict.
  destruct (load_user db p) as [u|]; cbn -[serialize].
  - now rewrite serialize_user_cut.
  - reflexivity.
Qed.

Lemma serialize_post_cut_tags (n : nat) (db : database) (p : Post.t) :
  serialize (S (S n)) db [["tags"]] (EPost p) = Some (post_without_tags db p).
Proof.
  rewrite serialize_S.
  cbn -[serialize load_tags load_user].
  unfold post_without_tags.
  destruct (load_user db p) as [u|]; cbn -[serialize].
  - now rewrite serialize_user_cut.
  - reflexivity.
Qed.

Lemma serialize_tag (n : nat) (db : database) (t : Tag.t) :
  serialize (S (S (S n))) db [] (ETag t) = Some (tag_dict db t).
Proof.
  rewrite serialize_S.
  cbn -[serialize load_tag_posts].
  rows_total (post_dict db) serialize_post.
  reflexivity.
Qed.

Lemma to_dict_post (db : database) (p : Post.t) :
  to_dict db [] (EPost p) = Some (post_dict db p).
Proof. exact (serialize_post 998 db p). Qed.

Lemma to_dict_tag (db : database) (t : Tag.t) :
  to_dict db [] (ETag t) = Some (tag_dict db t).
Proof. exact (serialize_tag 997 db t). Qed.

(** With the rule of the class's first option passed to [to_dict],
    the posts below a tag lose their [tags]. *)
Lemma to_dict_tag_option_1 (db : database) (t : Tag.t) :
  to_dict db ["-posts.tags"] (ETag t)
  = Some (JObj [("id", JInt (Tag.id t)); ("name", JStr (Tag.name t));
                ("posts", JArr (map (post_without_tags db)
                                    (load_tag_posts db (Tag.id t))))]).
Proof.
  unfold to_dict.
  change recursion_limit with (S (S (S 997))).
  rewrite serialize_S.
  cbn -[serialize load_tag_posts].
  rows_total (post_without_tags db) serialize_post_cut_tags.
  reflexivity.
Qed.
End ManyToManyFacts.

(** ** Routes of service 2 *)

Module TagRoutes.
Import ManyToMany ManyToManyFacts.

Ltac step := cbn -[to_dict load_tags load_tag_posts load_user load_posts
                   insert_link insert_tag delete_link sqlite_integer].

Ltac unfold_route :=
  unfold run, add_tag_to_post, remove_tag_from_post, get_or_404,
    post_query_get, tag_query_get, tag_query_filter_by_name_first,
    post_tags_of, post_tags_append, post_tags_remove, session_add_tag,
    post_to_dict, commit, modify, bind, gets, or_500, ret, abort;
  step.

Lemma link_eqb_eq (a b : Z * Z) : link_eqb a b = true <-> a = b.
Proof.
  destruct a as [a1 a2], b as [b1 b2]. unfold link_eqb. cbn [fst snd].
  rewrite andb_true_iff, !Z.eqb_eq. split.
  - intros [-> ->]. reflexivity.
  - intros [= -> ->]. now split.
Qed.

Lemma link_present (link : Z * Z) (l : list (Z * Z)) :
  existsb (link_eqb link) l = true <-> In link l.
Proof.
  rewrite existsb_exists. split.
  - intros (x & Hin & Heq). apply link_eqb_eq in Heq. now subst.
  - intros Hin. exists link. split; [assumption|]. now apply link_eqb_eq.
Qed.

(** [post.tags] holds exactly the stored tags linked to the post. *)
Lemma in_load_tags (db : database) (pid : Z) (t : Tag.t) :
  In t (load_tags db pid) <->
  In t (tags db) /\ In (pid, Tag.id t) (post_tags db).
Proof.
  unfold load_tags. rewrite in_flat_map. split.
  - intros ([p k] & Hl & Hin). cbn [fst snd] in Hin.
    destruct (p =? pid) eqn:Hp; [|contradiction].
    apply Z.eqb_eq in Hp. apply filter_In in Hin as [Hin Hk].
    apply Z.eqb_eq in Hk. subst. now split.
  - intros [Hin Hl]. exists (pid, Tag.id t). split; [assumption|].
    cbn [fst snd]. rewrite Z.eqb_refl. apply filter_In.
    split; [assumption|]. apply Z.eqb_refl.
Qed.

(** [tag.posts] holds exactly the stored posts linked to the tag. *)
Lemma in_load_tag_posts (db : database) (tid : Z) (p : Post.t) :
  In p (load_tag_posts db tid) <->
  In p (posts db) /\ In (Post.id p, tid) (post_tags db).
Proof.
  unfold load_tag_posts. rewrite in_flat_map. split.
  - intros ([q k] & Hl & Hin). cbn [fst snd] in Hin.
    destruct (k =? tid) eqn:Hk; [|contradiction].
    apply Z.eqb_eq in Hk. apply filter_In in Hin as [Hin Hq].
    apply Z.eqb_eq in Hq. subst. now split.
  - intros [Hin Hl]. exists (Post.id p, tid). split; [assumption|].
    cbn [fst snd]. rewrite Z.eqb_refl. apply filter_In.
    split; [assumption|]. apply Z.eqb_refl.
Qed.

Lemma tag_in_true (tag : Tag.t) (l : list Tag.t) :
  tag_in tag l = true <-> exists t, In t l /\ Tag.id t = Tag.id tag.
Proof.
  unfold tag_in. rewrite existsb_exists.
  split; intros (t & Hin & Hid); exists t; (split; [assumption|]);
    now apply Z.eqb_eq.
Qed.

(** A stored tag that is not among [post.tags] has no bridge row. *)
Lemma not_attached_no_link (db : database) (pid : Z) (tag : Tag.t) :
  In tag (tags db) ->
  tag_in tag (load_tags db pid) = false ->
  existsb (link_eqb (pid, Tag.id tag)) (post_tags db) = false.
Proof.
  intros Hin Hno. destruct (existsb _ (post_tags db)) eqn:Hex; [|reflexivity].
  apply link_present in Hex.
  assert (tag_in tag (load_tags db pid) = true) as Hyes.
  { apply tag_in_true. exists tag. split; [|reflexivity].
    apply in_load_tags. now split. }
  congruence.
Qed.

Lemma tag_in_after_insert_link (db : database) (pid : Z) (tag : Tag.t) :
  In tag (tags db) ->
  tag_in tag (load_tags (insert_link (pid, Tag.id tag) db) pid) = true.
Proof.
  intros Hin. apply tag_in_true. exists tag. split; [|reflexivity].
  apply in_load_tags. split; [assumption|].
  cbn. apply in_or_app. right. now left.
Qed.

(** *** [add_tag_to_post], path by path *)

Lemma add_tag_missing_post (db : database) (pid : Z) (data : list (string * string)) :
  find (fun p => Post.id p =? pid) (posts db) = None ->
  run (add_tag_to_post pid data) db
  = (HttpError (if sqlite_integer pid then 404 else 500), db).
Proof.
  intros Hp. unfold_route. rewrite Hp; step. now destruct (sqlite_integer pid).
Qed.

Section AddTag.
Variables (db : database) (data : list (string * string)).
Variables (post : Post.t) (name : string).
Hypothesis Hpost : find (fun p => Post.id p =? Post.id post) (posts db) = Some post.
Hypothesis Hname : subscript data "tag_name" = Some name.

Lemma add_tag_attached (tag : Tag.t) :
  find (fun t => String.eqb (Tag.name t) name) (tags db) = Some tag ->
  tag_in tag (load_tags db (Post.id post)) = true ->
  run (add_tag_to_post (Post.id post) data) db
  = (Json 200 (post_dict db post), db).
Proof.
  intros Htag Hin. unfold_route.
  rewrite Hpost; step. rewrite Hname; step. rewrite Htag; step.
  rewrite Hin; step.
  rewrite to_dict_post. reflexivity.
Qed.

Lemma add_tag_attaches (tag : Tag.t) :
  find (fun t => String.eqb (Tag.name t) name) (tags db) = Some tag ->
  tag_in tag (load_tags db (Post.id post)) = false ->
  let db' := insert_link (Post.id post, Tag.id tag) db in
  run (add_tag_to_post (Post.id post) data) db
  = (Json 200 (post_dict db' post), db').
Proof.
  intros Htag Hin db'. unfold_route.
  rewrite Hpost; step. rewrite Hname; step. rewrite Htag; step.
  rewrite Hin; step.
  rewrite (not_attached_no_link db (Post.id post) tag); [|now apply find_some in Htag|assumption].
  step. rewrite to_dict_post. reflexivity.
Qed.

Lemma add_tag_creates :
  find (fun t => String.eqb (Tag.name t) name) (tags db) = None ->
  let tag := {| Tag.id := next_id (map Tag.id (tags db)); Tag.name := name |} in
  let db1 := insert_tag tag db in
  let db' := if tag_in tag (load_tags db1 (Post.id post)) then db1
             else insert_link (Post.id post, Tag.id tag) db1 in
  run (add_tag_to_post (Post.id post) data) db
  = (Json 200 (post_dict db' post), db').
Proof.
  intros Htag tag db1 db'. unfold_route.
  rewrite Hpost; step. rewrite Hname; step. rewrite Htag; step.
  assert (existsb (fun t => String.eqb (Tag.name t) name) (tags db) = false) as Hfree.
  { destruct (existsb _ (tags db)) eqn:Hex; [|reflexivity].
    apply existsb_exists in Hex as (t & Ht & Hn).
    apply (find_none _ _ Htag) in Ht. congruence. }
  rewrite Hfree; step.
  fold tag. fold db1. subst db'.
  destruct (tag_in tag (load_tags db1 (Post.id post))) eqn:Hin; step.
  - rewrite to_dict_post. reflexivity.
  - change (existsb (link_eqb _) (post_tags _))
      with (existsb (link_eqb (Post.id post, Tag.id tag)) (post_tags db1)).
    rewrite (not_attached_no_link db1 (Post.id post) tag);
      [|cbn; apply in_or_app; right; now left|assumption].
    step. rewrite to_dict_post. reflexivity.
Qed.
End AddTag.

Lemma add_tag_bad_body (db : database) (pid : Z) (data : list (string * string))
      (post : Post.t) :
  find (fun p => Post.id p =? pid) (posts db) = Some post ->
  subscript data "tag_name" = None ->
  run (add_tag_to_post pid data) db = (HttpError 500, db).
Proof. intros Hp Hd. unfold_route. rewrite Hp; step. now rewrite Hd. Qed.

(** *** [remove_tag_from_post], path by path *)

Lemma remove_tag_missing_post (db : database) (pid tid : Z) :
  find (fun p => Post.id p =? pid) (posts db) = None ->
  run (remove_tag_from_post pid tid) db
  = (HttpError (if sqlite_integer pid then 404 else 500), db).
Proof.
  intros Hp. unfold_route. rewrite Hp; step. now destruct (sqlite_integer pid).
Qed.

Lemma remove_tag_missing_tag (db : database) (pid tid : Z) (post : Post.t) :
  find (fun p => Post.id p =? pid) (posts db) = Some post ->
  find (fun t => Tag.id t =? tid) (tags db) = None ->
  run (remove_tag_from_post pid tid) db
  = (HttpError (if sqlite_integer tid then 404 else 500), db).
Proof.
  intros Hp Ht. unfold_route. rewrite Hp; step. rewrite Ht; step.
  now destruct (sqlite_integer tid).
Qed.

Section RemoveTag.
Variables (db : database) (pid tid : Z) (post : Post.t) (tag : Tag.t).
Hypothesis Hpost : find (fun p => Post.id p =? pid) (posts db) = Some post.
Hypothesis Htag : find (fun t => Tag.id t =? tid) (tags db) = Some tag.

Lemma remove_tag_not_attached :
  tag_in tag (load_tags db (Post.id post)) = false ->
  run (remove_tag_from_post pid tid) db = (Json 200 (post_dict db post), db).
Proof.
  intros Hin. unfold_route. rewrite Hpost; step. rewrite Htag; step.
  rewrite Hin; step. rewrite to_dict_post. reflexivity.
Qed.

Lemma remove_tag_attached :
  tag_in tag (load_tags db (Post.id post)) = true ->
  let db' := delete_link (Post.id post, Tag.id tag) db in
  run (remove_tag_from_post pid tid) db = (Json 200 (post_dict db' post), db').
Proof.
  intros Hin db'. unfold_route. rewrite Hpost; step. rewrite Htag; step.
  rewrite Hin; step. rewrite to_dict_post. reflexivity.
Qed.
End RemoveTag.

(** *** The constraints of the schema, unpacked *)

Lemma wf_unpack (db : database) :
  wf db = true ->
  unique (map User.id (users db)) = true
  /\ unique (map Post.id (posts db)) = true
  /\ unique (map Tag.id (tags db)) = true
  /\ unique_names (map Tag.name (tags db)) = true
  /\ unique_links (post_tags db) = true
  /\ fk_ok db = true.
Proof.
  unfold wf. rewrite !andb_true_iff. tauto.
Qed.

Lemma stored_post_found (db : database) (post : Post.t) :
  wf db = true -> In post (posts db) ->
  find (fun p => Post.id p =? Post.id post) (posts db) = Some post.
Proof.
  intros Hwf Hin. apply wf_unpack in Hwf as (_ & Hp & _).
  exact (find_distinct Post.id Z.eqb Zeqb_eq _ _ Hp Hin).
Qed.

Lemma stored_tag_found (db : database) (tag : Tag.t) :
  wf db = true -> In tag (tags db) ->
  find (fun t => Tag.id t =? Tag.id tag) (tags db) = Some tag.
Proof.
  intros Hwf Hin. apply wf_unpack in Hwf as (_ & _ & Ht & _).
  exact (find_distinct Tag.id Z.eqb Zeqb_eq _ _ Ht Hin).
Qed.

Lemma stored_tag_found_by_name (db : database) (tag : Tag.t) :
  wf db = true -> In tag (tags db) ->
  find (fun t => String.eqb (Tag.name t) (Tag.name tag)) (tags db) = Some tag.
Proof.
  intros Hwf Hin. apply wf_unpack in Hwf as (_ & _ & _ & Hn & _).
  exact (find_distinct Tag.name String.eqb String.eqb_eq _ _ Hn Hin).
Qed.

(** With unique tag ids, [tag in post.tags] is membership of the row. *)
Lemma tag_in_stored (db : database) (pid : Z) (tag : Tag.t) :
  wf db = true -> In tag (tags db) ->
  tag_in tag (load_tags db pid) = true <-> In tag (load_tags db pid).
Proof.
  intros Hwf Hin. rewrite tag_in_true. split.
  - intros (t & Ht & Hid).
    apply wf_unpack in Hwf as (_ & _ & Hu & _).
    pose proof (proj1 (in_load_tags _ _ _) Ht) as [Ht' _].
    now rewrite <- (distinct_inj Tag.id Z.eqb Zeqb_eq _ _ _ Hu Ht' Hin Hid).
  - intros Ht. now exists tag.
Qed.

(** No tag id occurs twice in [post.tags]. *)
Lemma load_tags_NoDup (db : database) (pid : Z) :
  wf db = true -> NoDup (map Tag.id (load_tags db pid)).
Proof.
  intros Hwf. apply wf_unpack in Hwf as (_ & _ & Ht & _ & Hl & _).
  apply (distinct_NoDup Z.eqb Zeqb_eq) in Ht.
  apply (distinct_NoDup link_eqb link_eqb_eq) in Hl.
  unfold load_tags. induction (post_tags db) as [|[p k] links IH]; cbn [flat_map fst snd].
  - constructor.
  - apply NoDup_cons_iff in Hl as [Hnew Hl]. specialize (IH Hl).
    rewrite map_app. apply NoDup_app; [|assumption|].
    + destruct (p =? pid); [|constructor].
      clear -Ht. induction (tags db) as [|t ts IHt]; cbn [filter map]; [constructor|].
      cbn [map] in Ht. apply NoDup_cons_iff in Ht as [Hn Ht].
      destruct (Tag.id t =? k); [|now apply IHt].
      cbn [map]. constructor; [|now apply IHt].
      intros Hin. apply Hn. apply in_map_iff in Hin as (x & Hx & Hin).
      apply filter_In in Hin as [Hin _]. apply in_map_iff. now exists x.
    + intros i Hi Hi'. destruct (p =? pid) eqn:Hp; [|contradiction].
      apply Z.eqb_eq in Hp. subst p.
      apply in_map_iff in Hi as (t & <- & Hin).
      apply filter_In in Hin as [_ Hk]. apply Z.eqb_eq in Hk.
      apply in_map_iff in Hi' as (t' & Hid & Hin').
      apply in_flat_map in Hin' as ([p' k'] & Hl' & Hin'). cbn [fst snd] in Hin'.
      destruct (p' =? pid) eqn:Hp'; [|contradiction].
      apply Z.eqb_eq in Hp'. apply filter_In in Hin' as [_ Hk'].
      apply Z.eqb_eq in Hk'. apply Hnew. congruence.
Qed.

(** [C1] Attaching a tag that the post already carries: the request
    succeeds with the post's serialization, the database and so the
    post's tag list are left as they were, and the tag list holds the
    tag, and every tag, once. *)
Theorem attach_attached_tag_unchanged
        (db : database) (data : list (string * string))
        (post : Post.t) (tag : Tag.t) :
  wf db = true ->
  In post (posts db) ->
  In tag (load_tags db (Post.id post)) ->
  subscript data "tag_name" = Some (Tag.name tag) ->
  let out := run (add_tag_to_post (Post.id post) data) db in
  out = (Json 200 (post_dict db post), db)
  /\ load_tags (snd out) (Post.id post) = load_tags db (Post.id post)
  /\ In tag (load_tags (snd out) (Post.id post))
  /\ NoDup (map Tag.id (load_tags (snd out) (Post.id post))).
Proof.
  intros Hwf Hpost Hin Hname out.
  assert (Hstored : In tag (tags db)) by now apply in_load_tags in Hin.
  assert (Hout : out = (Json 200 (post_dict db post), db)).
  { apply add_tag_attached with (name := Tag.name tag) (tag := tag).
    - now apply stored_post_found.
    - assumption.
    - now apply stored_tag_found_by_name.
    - now apply tag_in_stored. }
  rewrite Hout. cbn [snd]. repeat split; try assumption.
  now apply load_tags_NoDup.
Qed.

(** [C3] Detaching a tag the post does not carry: status 200 with the
    post's serialization, and the database, bridge table and tag list
    included, is left as it was. *)
Theorem detach_unattached_tag_noop
        (db : database) (post : Post.t) (tag : Tag.t) :
  wf db = true ->
  In post (posts db) ->
  In tag (tags db) ->
  ~ In tag (load_tags db (Post.id post)) ->
  let out := run (remove_tag_from_post (Post.id post) (Tag.id tag)) db in
  out = (Json 200 (post_dict db post), db)
  /\ status_of (fst out) = 200
  /\ post_tags (snd out) = post_tags db
  /\ load_tags (snd out) (Post.id post) = load_tags db (Post.id post).
Proof.
  intros Hwf Hpost Htag Hnot out.
  assert (Hout : out = (Json 200 (post_dict db post), db)).
  { apply remove_tag_not_attached with (tag := tag).
    - now apply stored_post_found.
    - now apply stored_tag_found.
    - destruct (tag_in tag (load_tags db (Post.id post))) eqn:Hin; [|reflexivity].
      apply tag_in_stored in Hin; [contradiction|assumption|assumption]. }
  rewrite Hout. repeat split.
Qed.

(** [C6] A post id, or for DELETE a tag id, that an INTEGER column can
    hold and that names no stored row: the request ends in 404 and the
    database is left as it was.  An unknown id outside that range ends
    the request in 500 instead, the database again left as it was. *)
Theorem missing_entity_404
        (db : database) (pid tid : Z) (data : list (string * string)) :
  (sqlite_integer pid = true ->
   (forall p, In p (posts db) -> Post.id p <> pid) ->
   run (add_tag_to_post pid data) db = (HttpError 404, db))
  /\ (sqlite_integer pid = true -> sqlite_integer tid = true ->
      (forall p, In p (posts db) -> Post.id p <> pid)
      \/ (forall t, In t (tags db) -> Tag.id t <> tid) ->
      run (remove_tag_from_post pid tid) db = (HttpError 404, db))
  /\ (sqlite_integer pid = false ->
      (forall p, In p (posts db) -> Post.id p <> pid) ->
      run (add_tag_to_post pid data) db = (HttpError 500, db)
      /\ run (remove_tag_from_post pid tid) db = (HttpError 500, db)).
Proof.
  split; [|split].
  - intros Hrange Hno.
    rewrite add_tag_missing_post by now apply (find_key_none Post.id Z.eqb Zeqb_eq).
    now rewrite Hrange.
  - intros Hpid Htid Hno.
    destruct (find (fun p => Post.id p =? pid) (posts db)) as [post|] eqn:Hp.
    + destruct Hno as [Hno|Hno].
      * apply (find_key_none Post.id Z.eqb Zeqb_eq) in Hno. congruence.
      * rewrite (remove_tag_missing_tag db pid tid post Hp)
          by now apply (find_key_none Tag.id Z.eqb Zeqb_eq).
        now rewrite Htid.
    + rewrite (remove_tag_missing_post db pid tid Hp). now rewrite Hpid.
  - intros Hrange Hno.
    apply (find_key_none Post.id Z.eqb Zeqb_eq) in Hno.
    rewrite (add_tag_missing_post db pid data Hno),
      (remove_tag_missing_post db pid tid Hno), Hrange.
    now split.
Qed.

(** *** The routes keep the constraints of the schema *)

Lemma wf_insert_tag (db : database) (name : string) :
  wf db = true ->
  find (fun t => String.eqb (Tag.name t) name) (tags db) = None ->
  wf (insert_tag {| Tag.id := next_id (map Tag.id (tags db)); Tag.name := name |} db)
  = true.
Proof.
  intros Hwf Hfree. apply wf_unpack in Hwf as (Hu & Hp & Ht & Hn & Hl & Hfk).
  unfold wf, fk_ok in *. cbn [insert_tag users posts tags post_tags].
  rewrite Hu, Hp, Hl. rewrite !map_app. cbn [map Tag.id Tag.name].
  rewrite (unique_snoc_next_id _ Ht).
  apply andb_true_iff in Hfk as [Hfk1 Hfk2]. rewrite Hfk1.
  cbn [andb]. apply andb_true_iff. split.
  - unfold unique_names in *. rewrite distinct_snoc, Hn. cbn [andb].
    rewrite ?andb_true_r. apply negb_true_iff.
    destruct (existsb _ (map Tag.name (tags db))) eqn:Hex; [|reflexivity].
    apply existsb_exists in Hex as (k & Hin & Hk).
    apply in_map_iff in Hin as (t & <- & Hin).
    apply (find_none _ _ Hfree) in Hin. congruence.
  - apply forallb_forall. intros l Hin.
    rewrite forallb_forall in Hfk2. specialize (Hfk2 l Hin).
    apply andb_true_iff in Hfk2 as [Ha Hb]. rewrite Ha. cbn [andb].
    now apply existsb_snoc_keeps.
Qed.

Lemma wf_insert_link (db : database) (post : Post.t) (tag : Tag.t) :
  wf db = true ->
  In post (posts db) -> In tag (tags db) ->
  existsb (link_eqb (Post.id post, Tag.id tag)) (post_tags db) = false ->
  wf (insert_link (Post.id post, Tag.id tag) db) = true.
Proof.
  intros Hwf Hpost Htag Hnew. apply wf_unpack in Hwf as (Hu & Hp & Ht & Hn & Hl & Hfk).
  unfold wf, fk_ok in *. cbn [insert_link users posts tags post_tags].
  rewrite Hu, Hp, Ht, Hn. cbn [andb].
  apply andb_true_iff in Hfk as [Hfk1 Hfk2]. rewrite Hfk1. cbn [andb].
  apply andb_true_iff. split.
  - unfold unique_links in *. rewrite distinct_snoc, Hl. cbn [andb].
    apply negb_true_iff.
    destruct (existsb (fun k => link_eqb k _) (post_tags db)) eqn:Hex; [|reflexivity].
    apply existsb_exists in Hex as (l & Hin & Heq). apply link_eqb_eq in Heq.
    subst l. apply link_present in Hin. congruence.
  - rewrite forallb_app, Hfk2. cbn [forallb fst snd andb].
    rewrite andb_true_r. apply andb_true_iff.
    split; apply existsb_exists; [exists post|exists tag];
      (split; [assumption|apply Z.eqb_refl]).
Qed.

Lemma wf_delete_link (db : database) (link : Z * Z) :
  wf db = true -> wf (delete_link link db) = true.
Proof.
  intros Hwf. apply wf_unpack in Hwf as (Hu & Hp & Ht & Hn & Hl & Hfk).
  unfold wf, fk_ok in *. cbn [delete_link users posts tags post_tags].
  rewrite Hu, Hp, Ht, Hn. cbn [andb].
  apply andb_true_iff in Hfk as [Hfk1 Hfk2]. rewrite Hfk1. cbn [andb].
  apply andb_true_iff. split.
  - now apply distinct_filter.
  - apply forallb_forall. intros l Hin. apply filter_In in Hin as [Hin _].
    rewrite forallb_forall in Hfk2. now apply Hfk2.
Qed.

Lemma add_tag_keeps_wf (db : database) (pid : Z) (data : list (string * string)) :
  wf db = true -> wf (snd (run (add_tag_to_post pid data) db)) = true.
Proof.
  intros Hwf.
  destruct (find (fun p => Post.id p =? pid) (posts db)) as [post|] eqn:Hp;
    [|now rewrite add_tag_missing_post].
  destruct (subscript data "tag_name") as [name|] eqn:Hd;
    [|now rewrite (add_tag_bad_body db pid data post)].
  pose proof (find_key_some Post.id Z.eqb Zeqb_eq _ _ _ Hp) as [Hstored Hid]. subst pid.
  destruct (find (fun t => String.eqb (Tag.name t) name) (tags db)) as [tag|] eqn:Ht.
  - destruct (tag_in tag (load_tags db (Post.id post))) eqn:Hin.
    + now rewrite (add_tag_attached db data post name Hp Hd tag Ht Hin).
    + rewrite (add_tag_attaches db data post name Hp Hd tag Ht Hin). cbn [snd].
      pose proof (find_some _ _ Ht) as [Htag _].
      apply wf_insert_link; try assumption.
      now apply not_attached_no_link.
  - rewrite (add_tag_creates db data post name Hp Hd Ht). cbn [snd].
    pose proof (wf_insert_tag db name Hwf Ht) as Hwf1.
    set (tag := {| Tag.id := next_id (map Tag.id (tags db)); Tag.name := name |}) in *.
    destruct (tag_in tag (load_tags (insert_tag tag db) (Post.id post))) eqn:Hin;
      [assumption|].
    assert (Hnew : In tag (tags (insert_tag tag db))).
    { cbn. apply in_or_app. right. now left. }
    apply wf_insert_link; try assumption.
    now apply not_attached_no_link.
Qed.

Lemma remove_tag_keeps_wf (db : database) (pid tid : Z) :
  wf db = true -> wf (snd (run (remove_tag_from_post pid tid) db)) = true.
Proof.
  intros Hwf.
  destruct (find (fun p => Post.id p =? pid) (posts db)) as [post|] eqn:Hp;
    [|now rewrite remove_tag_missing_post].
  destruct (find (fun t => Tag.id t =? tid) (tags db)) as [tag|] eqn:Ht;
    [|now rewrite (remove_tag_missing_tag db pid tid post)].
  destruct (tag_in tag (load_tags db (Post.id post))) eqn:Hin.
  - rewrite (remove_tag_attached db pid tid post tag Hp Ht Hin). cbn [snd].
    now apply wf_delete_link.
  - now rewrite (remove_tag_not_attached db pid tid post tag Hp Ht Hin).
Qed.

(** Attaching the same tag a second time changes nothing. *)
Lemma attach_twice_same (db : database) (pid : Z) (data : list (string * string)) :
  let db1 := snd (run (add_tag_to_post pid data) db) in
  snd (run (add_tag_to_post pid data) db1) = db1.
Proof.
  intros db1. subst db1.
  destruct (find (fun p => Post.id p =? pid) (posts db)) as [post|] eqn:Hp;
    [|rewrite (add_tag_missing_post db pid data Hp); cbn [snd];
      now rewrite (add_tag_missing_post db pid data Hp)].
  destruct (subscript data "tag_name") as [name|] eqn:Hd;
    [|rewrite (add_tag_bad_body db pid data post Hp Hd); cbn [snd];
      now rewrite (add_tag_bad_body db pid data post Hp Hd)].
  pose proof (find_key_some Post.id Z.eqb Zeqb_eq _ _ _ Hp) as [_ Hid]. subst pid.
  destruct (find (fun t => String.eqb (Tag.name t) name) (tags db)) as [tag|] eqn:Ht.
  - pose proof (find_some _ _ Ht) as [Htag _].
    destruct (tag_in tag (load_tags db (Post.id post))) eqn:Hin.
    + rewrite (add_tag_attached db data post name Hp Hd tag Ht Hin). cbn [snd].
      now rewrite (add_tag_attached db data post name Hp Hd tag Ht Hin).
    + rewrite (add_tag_attaches db data post name Hp Hd tag Ht Hin). cbn [snd].
      rewrite (add_tag_attached (insert_link (Post.id post, Tag.id tag) db)
                 data post name Hp Hd tag Ht); [reflexivity|].
      now apply tag_in_after_insert_link.
  - rewrite (add_tag_creates db data post name Hp Hd Ht). cbn [snd].
    set (tag := {| Tag.id := next_id (map Tag.id (tags db)); Tag.name := name |}).
    set (db1 := insert_tag tag db).
    assert (Hnew : In tag (tags db1)).
    { cbn. apply in_or_app. right. now left. }
    assert (Hfound : find (fun t => String.eqb (Tag.name t) name) (tags db1) = Some tag).
    { cbn [db1 insert_tag tags]. apply find_snoc_new; [assumption|].
      apply String.eqb_refl. }
    destruct (tag_in tag (load_tags db1 (Post.id post))) eqn:Hin.
    + now rewrite (add_tag_attached db1 data post name Hp Hd tag Hfound Hin).
    + rewrite (add_tag_attached (insert_link (Post.id post, Tag.id tag) db1)
                 data post name Hp Hd tag Hfound); [reflexivity|].
      now apply (tag_in_after_insert_link db1).
Qed.

(** *** What a request can leave behind *)

Lemma remove_tag_outcome (db : database) (pid tid : Z) :
  let db' := snd (run (remove_tag_from_post pid tid) db) in
  db' = db \/ db' = delete_link (pid, tid) db.
Proof.
  intros db'. subst db'.
  destruct (find (fun p => Post.id p =? pid) (posts db)) as [post|] eqn:Hp;
    [|left; now rewrite remove_tag_missing_post].
  destruct (find (fun t => Tag.id t =? tid) (tags db)) as [tag|] eqn:Ht;
    [|left; now rewrite (remove_tag_missing_tag db pid tid post)].
  destruct (tag_in tag (load_tags db (Post.id post))) eqn:Hin.
  - right. rewrite (remove_tag_attached db pid tid post tag Hp Ht Hin). cbn [snd].
    apply (find_key_some Post.id Z.eqb Zeqb_eq) in Hp as [_ ->].
    apply (find_key_some Tag.id Z.eqb Zeqb_eq) in Ht as [_ ->].
    reflexivity.
  - left. now rewrite (remove_tag_not_attached db pid tid post tag Hp Ht Hin).
Qed.

Lemma add_tag_outcome (db : database) (pid : Z) (data : list (string * string)) :
  let db' := snd (run (add_tag_to_post pid data) db) in
  exists db1,
    (db1 = db
     \/ exists name,
          find (fun t => String.eqb (Tag.name t) name) (tags db) = None
          /\ db1 = insert_tag {| Tag.id := next_id (map Tag.id (tags db));
                                 Tag.name := name |} db)
    /\ (db' = db1 \/ exists k, db' = insert_link (pid, k) db1).
Proof.
  intros db'. subst db'.
  destruct (find (fun p => Post.id p =? pid) (posts db)) as [post|] eqn:Hp;
    [|exists db; rewrite add_tag_missing_post by assumption; auto].
  destruct (subscript data "tag_name") as [name|] eqn:Hd;
    [|exists db; rewrite (add_tag_bad_body db pid data post) by assumption; auto].
  pose proof (find_key_some Post.id Z.eqb Zeqb_eq _ _ _ Hp) as [_ Hid]. subst pid.
  destruct (find (fun t => String.eqb (Tag.name t) name) (tags db)) as [tag|] eqn:Ht.
  - exists db. split; [now left|].
    destruct (tag_in tag (load_tags db (Post.id post))) eqn:Hin.
    + left. now rewrite (add_tag_attached db data post name Hp Hd tag Ht Hin).
    + right. exists (Tag.id tag).
      now rewrite (add_tag_attaches db data post name Hp Hd tag Ht Hin).
  - eexists. split; [right; exists name; split; [assumption|reflexivity]|].
    rewrite (add_tag_creates db data post name Hp Hd Ht). cbn [snd].
    destruct (tag_in _ _); [now left|right; eexists; reflexivity].
Qed.

Lemma load_tags_delete_link_other (db : database) (pid tid q : Z) :
  q <> pid ->
  load_tags (delete_link (pid, tid) db) q = load_tags db q.
Proof.
  intros Hq. unfold load_tags, delete_link. cbn [post_tags tags].
  induction (post_tags db) as [|[p k] links IH]; [reflexivity|].
  cbn [filter flat_map]. destruct (link_eqb (pid, tid) (p, k)) eqn:Hl; cbn [negb].
  - apply link_eqb_eq in Hl. injection Hl as <- <-.
    cbn [fst]. destruct (pid =? q) eqn:Hpq; [apply Z.eqb_eq in Hpq; congruence|].
    exact IH.
  - cbn [flat_map]. now rewrite IH.
Qed.

Lemma get_tags_run (db : database) :
  run get_tags db = (Json 200 (JArr (map (tag_dict db) (tags db))), db).
Proof.
  unfold run, get_tags, bind, gets, or_500, ret. step.
  rewrite (mapM_map_total _ (tag_dict db)) by (intros; apply to_dict_tag).
  reflexivity.
Qed.

(** [C9] A DELETE touches the bridge table only, and there only the
    row of the pair: users, posts and tags are the same rows, no other
    bridge row comes or goes, every other post keeps its tag list, the
    pair itself is no longer linked, and GET /tags still lists every
    tag, the detached one included. *)
Theorem detach_removes_only_the_link (db : database) (pid tid : Z) :
  let db' := snd (run (remove_tag_from_post pid tid) db) in
  users db' = users db
  /\ posts db' = posts db
  /\ tags db' = tags db
  /\ (forall l, In l (post_tags db') -> In l (post_tags db))
  /\ (forall l, l <> (pid, tid) -> In l (post_tags db) -> In l (post_tags db'))
  /\ (forall q, q <> pid -> load_tags db' q = load_tags db q)
  /\ (forall post tag,
        find (fun p => Post.id p =? pid) (posts db) = Some post ->
        find (fun t => Tag.id t =? tid) (tags db) = Some tag ->
        ~ In (pid, tid) (post_tags db')
        /\ tag_in tag (load_tags db' pid) = false)
  /\ (forall tag, In tag (tags db) ->
        exists bodies,
          run get_tags db' = (Json 200 (JArr bodies), db')
          /\ In (tag_dict db' tag) bodies).
Proof.
  intros db'.
  assert (Hframe : users db' = users db /\ posts db' = posts db /\ tags db' = tags db).
  { destruct (remove_tag_outcome db pid tid) as [H|H]; fold db' in H; rewrite H;
      repeat split. }
  destruct Hframe as (Hu & Hp & Ht).
  split; [assumption|]. split; [assumption|]. split; [assumption|].
  split; [|split; [|split; [|split]]].
  - intros l. destruct (remove_tag_outcome db pid tid) as [H|H]; fold db' in H;
      rewrite H; [trivial|].
    cbn [delete_link post_tags]. intros Hl. now apply filter_In in Hl.
  - intros l Hl Hin. destruct (remove_tag_outcome db pid tid) as [H|H]; fold db' in H;
      rewrite H; [assumption|].
    cbn [delete_link post_tags]. apply filter_In. split; [assumption|].
    apply negb_true_iff. destruct (link_eqb (pid, tid) l) eqn:E; [|reflexivity].
    apply link_eqb_eq in E. congruence.
  - intros q Hq. destruct (remove_tag_outcome db pid tid) as [H|H]; fold db' in H;
      rewrite H; [reflexivity|].
    now apply load_tags_delete_link_other.
  - intros post tag Hpost Htag.
    pose proof (find_key_some Post.id Z.eqb Zeqb_eq _ _ _ Hpost) as [_ Hpid].
    pose proof (find_key_some Tag.id Z.eqb Zeqb_eq _ _ _ Htag) as [Hstored Htid].
    assert (Hgone : ~ In (pid, tid) (post_tags db')).
    { subst db'.
      destruct (tag_in tag (load_tags db (Post.id post))) eqn:Hin.
      - rewrite (remove_tag_attached db pid tid post tag Hpost Htag Hin). cbn [snd].
        rewrite Hpid, Htid. cbn [delete_link post_tags]. intros Hl.
        apply filter_In in Hl as [_ Hl]. apply negb_true_iff in Hl.
        assert (link_eqb (pid, tid) (pid, tid) = true) by now apply link_eqb_eq.
        congruence.
      - rewrite (remove_tag_not_attached db pid tid post tag Hpost Htag Hin). cbn [snd].
        intros Hl. apply link_present in Hl.
        rewrite <- Hpid, <- Htid in Hl.
        now rewrite (not_attached_no_link db (Post.id post) tag Hstored Hin) in Hl. }
    split; [assumption|].
    destruct (tag_in tag (load_tags db' pid)) eqn:Hin; [|reflexivity].
    apply tag_in_true in Hin as (t & Hin & Hid).
    apply in_load_tags in Hin as [_ Hl]. elim Hgone. congruence.
  - intros tag Hin. exists (map (tag_dict db') (tags db')). split.
    + apply get_tags_run.
    + apply in_map. now rewrite Ht.
Qed.

(** [C10] POST /posts/{post_id}/tags looks the tag up by name before
    it makes one.  For a stored post and a body with a [tag_name]: the
    request succeeds; a tag that has the name is reused, the [tags]
    table is left as it was and that tag ends up among the post's tags;
    without such a tag exactly one row with the name and a fresh id is
    appended and ends up among the post's tags.  Whatever the request,
    tag names that were unique remain unique. *)
Theorem tag_find_or_create (db : database) (pid : Z) (data : list (string * string)) :
  let out := run (add_tag_to_post pid data) db in
  (unique_names (map Tag.name (tags db)) = true ->
   unique_names (map Tag.name (tags (snd out))) = true)
  /\ (forall post name,
        find (fun p => Post.id p =? pid) (posts db) = Some post ->
        subscript data "tag_name" = Some name ->
        status_of (fst out) = 200
        /\ match find (fun t => String.eqb (Tag.name t) name) (tags db) with
           | Some tag =>
               tags (snd out) = tags db
               /\ tag_in tag (load_tags (snd out) pid) = true
           | None =>
               let tag := {| Tag.id := next_id (map Tag.id (tags db));
                             Tag.name := name |} in
               tags (snd out) = tags db ++ [tag]
               /\ ~ In (Tag.id tag) (map Tag.id (tags db))
               /\ tag_in tag (load_tags (snd out) pid) = true
           end).
Proof.
  intros out. split.
  - intros Huniq. subst out.
    destruct (add_tag_outcome db pid data) as (db1 & Hdb1 & Hout).
    assert (Hu1 : unique_names (map Tag.name (tags db1)) = true).
    { destruct Hdb1 as [->|(name & Hfree & ->)]; [assumption|].
      cbn [insert_tag tags]. rewrite map_app. cbn [map Tag.name].
      unfold unique_names. rewrite distinct_snoc.
      apply andb_true_iff. split; [assumption|].
      apply negb_true_iff.
      destruct (existsb _ (map Tag.name (tags db))) eqn:Hex; [|reflexivity].
      apply existsb_exists in Hex as (k & Hin & Hn).
      apply in_map_iff in Hin as (t & <- & Hin).
      apply (find_none _ _ Hfree) in Hin. congruence. }
    destruct Hout as [->|(k & ->)]; assumption.
  - intros post name Hpost Hname.
    pose proof (find_key_some Post.id Z.eqb Zeqb_eq _ _ _ Hpost) as [_ Hid].
    subst pid. subst out.
    destruct (find (fun t => String.eqb (Tag.name t) name) (tags db)) as [tag|] eqn:Htag.
    + pose proof (find_some _ _ Htag) as [Hstored _].
      destruct (tag_in tag (load_tags db (Post.id post))) eqn:Hin.
      * rewrite (add_tag_attached db data post name Hpost Hname tag Htag Hin).
        cbn [fst snd status_of]. auto.
      * rewrite (add_tag_attaches db data post name Hpost Hname tag Htag Hin).
        cbn [fst snd status_of]. split; [reflexivity|]. split; [reflexivity|].
        now apply tag_in_after_insert_link.
    + rewrite (add_tag_creates db data post name Hpost Hname Htag).
      cbn [fst snd status_of]. split; [reflexivity|].
      set (tag := {| Tag.id := next_id (map Tag.id (tags db)); Tag.name := name |}).
      assert (Hnew : In tag (tags (insert_tag tag db))).
      { cbn. apply in_or_app. right. now left. }
      split; [|split].
      * destruct (tag_in tag _); reflexivity.
      * intros Hin. apply next_id_fresh in Hin. cbn [Tag.id tag] in Hin. lia.
      * destruct (tag_in tag (load_tags (insert_tag tag db) (Post.id post))) eqn:Hin;
          [assumption|].
        now apply (tag_in_after_insert_link (insert_tag tag db)).
Qed.
End TagRoutes.

(** ** Routes of service 1 *)

Module UserRoutes.
Import App AppFacts.

Ltac step := cbn -[to_dict load_user load_posts].

Lemma create_user_bad_body (db : database) (data : list (string * string)) :
  subscript data "name" = None ->
  run (create_user data) db = (HttpError 500, db).
Proof.
  intros Hd. unfold run, create_user, bind, or_500, abort. now rewrite Hd.
Qed.

Lemma create_user_run (db : database) (data : list (string * string)) (name : string) :
  subscript data "name" = Some name ->
  let new_user := {| User.id := next_id (map User.id (users db)); User.name := name |} in
  let db' := {| users := users db ++ [new_user]; posts := posts db |} in
  run (create_user data) db = (Json 201 (user_dict db' new_user), db').
Proof.
  intros Hd new_user db'.
  unfold run, create_user, session_add_user, commit, modify, bind, gets, or_500, ret.
  rewrite Hd; step. rewrite to_dict_app_user. reflexivity.
Qed.

(** Under the foreign key no post refers to an id that is still free. *)
Lemma no_posts_for_next_id (db : database) :
  fk_ok db = true ->
  filter (refers_to (next_id (map User.id (users db)))) (posts db) = [].
Proof.
  intros Hfk. apply filter_nothing. intros p Hp.
  unfold fk_ok in Hfk. rewrite forallb_forall in Hfk. specialize (Hfk p Hp).
  unfold refers_to. destruct (Post.user_id p) as [k|]; [|reflexivity].
  apply existsb_exists in Hfk as (u & Hu & Hk). apply Z.eqb_eq in Hk.
  apply Z.eqb_neq. intros ->.
  apply (next_id_not_in (map User.id (users db))).
  rewrite <- Hk. now apply in_map.
Qed.

Lemma create_user_keeps_wf (db : database) (data : list (string * string)) :
  wf db = true -> wf (snd (run (create_user data) db)) = true.
Proof.
  intros Hwf. destruct (subscript data "name") as [name|] eqn:Hd;
    [|now rewrite create_user_bad_body].
  rewrite (create_user_run db data name Hd). cbn [snd].
  unfold wf, fk_ok in *. cbn [users posts].
  apply andb_true_iff in Hwf as [Hwf Hfk]. apply andb_true_iff in Hwf as [Hu Hp].
  rewrite Hp, map_app. cbn [map User.id].
  rewrite (unique_snoc_next_id _ Hu). cbn [andb].
  apply forallb_forall. intros p Hin.
  rewrite forallb_forall in Hfk. specialize (Hfk p Hin).
  destruct (Post.user_id p); [|reflexivity].
  now apply existsb_snoc_keeps.
Qed.

(** [C4] POST /users with body [{"name": s}]: status 201; the body is
    the new user's serialization, that is the id the database assigned
    (the next free one, 1 on an empty table), the name [s] and an empty
    [posts] list; the user row is the one row added. *)
Theorem create_user_response (db : database) (data : list (string * string))
        (s : string) :
  fk_ok db = true ->
  subscript data "name" = Some s ->
  let new_id := next_id (map User.id (users db)) in
  run (create_user data) db
  = (Json 201 (JObj [("id", JInt new_id); ("name", JStr s); ("posts", JArr [])]),
     {| users := users db ++ [{| User.id := new_id; User.name := s |}];
        posts := posts db |})
  /\ (users db = [] -> new_id = 1).
Proof.
  intros Hfk Hd new_id. split.
  - rewrite (create_user_run db data s Hd). unfold user_dict, load_posts.
    cbn [User.id User.name posts].
    now rewrite (no_posts_for_next_id db Hfk).
  - intros Hempty. subst new_id. now rewrite Hempty.
Qed.
End UserRoutes.

(** ** Both services *)

Lemma app_post_dict_no_posts (db : App.database) (p : App.Post.t) :
  has_key "posts" (App.post_dict db p) = false.
Proof.
  unfold App.post_dict. cbn -[App.load_user].
  destruct (App.Post.user_id p), (App.load_user db p); reflexivity.
Qed.

Lemma tag_briefs_no_posts (l : list ManyToMany.Tag.t) :
  existsb (has_key "posts") (map ManyToMany.tag_brief l) = false.
Proof. induction l as [|t l IH]; [reflexivity|exact IH]. Qed.

Lemma post_dict_no_posts (db : ManyToMany.database) (p : ManyToMany.Post.t) :
  has_key "posts" (ManyToMany.post_dict db p) = false.
Proof.
  unfold ManyToMany.post_dict. cbn -[ManyToMany.load_tags ManyToMany.load_user].
  rewrite tag_briefs_no_posts.
  destruct (ManyToMany.Post.user_id p), (ManyToMany.load_user db p); reflexivity.
Qed.

(** [C5] A post serialized under its class rule [-user.posts], in
    either service: [to_dict] returns a mapping; no object in it, at any
    depth, has a [posts] key; its [user] entry is the user's [id] and
    [name] when the post has a user, and null when it has none. *)
Theorem post_to_dict_cuts_user_posts :
  (forall (db : App.database) (p : App.Post.t),
      exists j,
        to_dict db [] (App.EPost p) = Some j
        /\ has_key "posts" j = false
        /\ (forall u, App.load_user db p = Some u ->
                      field "user" j
                      = Some (JObj [("id", JInt (App.User.id u));
                                    ("name", JStr (App.User.name u))]))
        /\ (App.load_user db p = None -> field "user" j = Some JNull))
  /\ (forall (db : ManyToMany.database) (p : ManyToMany.Post.t),
      exists j,
        to_dict db [] (ManyToMany.EPost p) = Some j
        /\ has_key "posts" j = false
        /\ (forall u, ManyToMany.load_user db p = Some u ->
                      field "user" j
                      = Some (JObj [("id", JInt (ManyToMany.User.id u));
                                    ("name", JStr (ManyToMany.User.name u))]))
        /\ (ManyToMany.load_user db p = None -> field "user" j = Some JNull)).
Proof.
  split; intros db p.
  - exists (App.post_dict db p). split; [apply AppFacts.to_dict_app_post|].
    split; [apply app_post_dict_no_posts|].
    split; [intros u Hu|intros Hu]; unfold App.post_dict; rewrite Hu; reflexivity.
  - exists (ManyToMany.post_dict db p). split; [apply ManyToManyFacts.to_dict_post|].
    split; [apply post_dict_no_posts|].
    split; [intros u Hu|intros Hu]; unfold ManyToMany.post_dict; rewrite Hu; reflexivity.
Qed.

(** What [Tag.to_dict()] gives in the service as written, where the
    class [Tag] has every [serialize_rules] line in a comment and so
    declares no rule: every post among the tag's [posts] is serialized
    with its [tags] entry, the list of the post's tags. *)
Theorem tag_to_dict_keeps_nested_tags
        (db : ManyToMany.database) (t : ManyToMany.Tag.t) (p : ManyToMany.Post.t) :
  In p (ManyToMany.load_tag_posts db (ManyToMany.Tag.id t)) ->
  exists j entries,
    to_dict db [] (ManyToMany.ETag t) = Some j
    /\ field "posts" j = Some (JArr entries)
    /\ In (ManyToMany.post_dict db p) entries
    /\ field "tags" (ManyToMany.post_dict db p)
       = Some (JArr (map ManyToMany.tag_brief
                         (ManyToMany.load_tags db (ManyToMany.Post.id p)))).
Proof.
  intros Hin. exists (ManyToMany.tag_dict db t). eexists.
  split; [apply ManyToManyFacts.to_dict_tag|].
  split; [reflexivity|]. split; [now apply in_map|reflexivity].
Qed.

Lemma post_without_tags_no_tags (db : ManyToMany.database) (p : ManyToMany.Post.t) :
  has_key "tags" (ManyToMany.post_without_tags db p) = false.
Proof.
  unfold ManyToMany.post_without_tags. cbn -[ManyToMany.load_user].
  destruct (ManyToMany.Post.user_id p), (ManyToMany.load_user db p); reflexivity.
Qed.

(** [C2] A tag serialized with the rule [-posts.tags]: [to_dict]
    returns a mapping whose [posts] list has one entry per post of the
    tag, in order, and no entry has a [tags] key, neither at its top nor
    deeper inside. *)
Theorem tag_to_dict_with_rule_cuts_tags
        (db : ManyToMany.database) (t : ManyToMany.Tag.t) :
  exists j entries,
    to_dict db ["-posts.tags"] (ManyToMany.ETag t) = Some j
    /\ field "posts" j = Some (JArr entries)
    /\ map (field "id") entries
       = map (fun p => Some (JInt (ManyToMany.Post.id p)))
             (ManyToMany.load_tag_posts db (ManyToMany.Tag.id t))
    /\ forall e, In e entries -> field "tags" e = None /\ has_key "tags" e = false.
Proof.
  eexists. eexists. split; [apply ManyToManyFacts.to_dict_tag_option_1|].
  split; [reflexivity|]. split.
  - rewrite map_map. reflexivity.
  - intros e He. apply in_map_iff in He as (p & <- & _).
    split; [reflexivity|apply post_without_tags_no_tags].
Qed.

Lemma cascade_of_user_posts :
  cascades_delete App.User.posts = true
  /\ cascades_delete ManyToMany.User.posts = true.
Proof. split; reflexivity. Qed.

Lemma app_delete_user_rows (db : App.database) (u : App.User.t) :
  let db' := committed_by (App.delete_user u) db in
  App.posts db'
  = filter (fun p => negb (existsb (Z.eqb (App.Post.id p))
                                   (map App.Post.id (App.load_posts db u))))
           (App.posts db)
  /\ App.users db'
     = filter (fun u' => negb (App.User.id u' =? App.User.id u)) (App.users db).
Proof. split; reflexivity. Qed.

Lemma delete_user_rows (db : ManyToMany.database) (u : ManyToMany.User.t) :
  let db' := committed_by (ManyToMany.delete_user u) db in
  ManyToMany.posts db'
  = filter (fun p => negb (existsb (Z.eqb (ManyToMany.Post.id p))
                                   (map ManyToMany.Post.id (ManyToMany.load_posts db u))))
           (ManyToMany.posts db)
  /\ ManyToMany.users db'
     = filter (fun u' => negb (ManyToMany.User.id u' =? ManyToMany.User.id u))
              (ManyToMany.users db)
  /\ ManyToMany.tags db' = ManyToMany.tags db
  /\ ManyToMany.post_tags db'
     = filter (fun l => negb (existsb (Z.eqb (fst l))
                                      (map ManyToMany.Post.id (ManyToMany.load_posts db u))))
              (ManyToMany.post_tags db).
Proof. repeat split; reflexivity. Qed.

Lemma existsb_eqb_in (k : Z) (ids : list Z) :
  existsb (Z.eqb k) ids = true <-> In k ids.
Proof.
  rewrite existsb_exists. split.
  - intros (x & Hin & Hx). apply Z.eqb_eq in Hx. now subst.
  - intros Hin. exists k. split; [assumption|apply Z.eqb_refl].
Qed.

(** [C8] Deleting a user through the session, in either service, under
    the cascade declared on [User.posts]: once committed, the query for
    posts by the user's id returns no row; of every post that referred to
    the user no row is left, not even one under that post's id with the
    reference taken out; the posts that remain are rows that were stored,
    as they were, and every post of another id is among them; no user
    row has the id any more.  In service 2 the bridge rows of the deleted
    posts go with them and the tags stay. *)
Theorem delete_user_cascades_to_posts :
  (forall (db : App.database) (u : App.User.t),
      let db' := committed_by (App.delete_user u) db in
      App.posts_by_user_id db' (App.User.id u) = []
      /\ (forall p, In p (App.posts db) ->
                    App.Post.user_id p = Some (App.User.id u) ->
                    ~ In (App.Post.id p) (map App.Post.id (App.posts db'))
                    /\ ~ In p (App.posts db'))
      /\ (forall p, In p (App.posts db') -> In p (App.posts db))
      /\ (forall p, In p (App.posts db) ->
                    ~ In (App.Post.id p) (map App.Post.id (App.load_posts db u)) ->
                    In p (App.posts db'))
      /\ ~ In (App.User.id u) (map App.User.id (App.users db'))
      /\ ~ In u (App.users db'))
  /\ (forall (db : ManyToMany.database) (u : ManyToMany.User.t),
      let db' := committed_by (ManyToMany.delete_user u) db in
      ManyToMany.posts_by_user_id db' (ManyToMany.User.id u) = []
      /\ (forall p, In p (ManyToMany.posts db) ->
                    ManyToMany.Post.user_id p = Some (ManyToMany.User.id u) ->
                    ~ In (ManyToMany.Post.id p)
                         (map ManyToMany.Post.id (ManyToMany.posts db'))
                    /\ ~ In p (ManyToMany.posts db')
                    /\ forall l, In l (ManyToMany.post_tags db') ->
                                 fst l <> ManyToMany.Post.id p)
      /\ (forall p, In p (ManyToMany.posts db') -> In p (ManyToMany.posts db))
      /\ (forall p, In p (ManyToMany.posts db) ->
                    ~ In (ManyToMany.Post.id p)
                         (map ManyToMany.Post.id (ManyToMany.load_posts db u)) ->
                    In p (ManyToMany.posts db'))
      /\ ~ In (ManyToMany.User.id u) (map ManyToMany.User.id (ManyToMany.users db'))
      /\ ~ In u (ManyToMany.users db')
      /\ ManyToMany.tags db' = ManyToMany.tags db).
Proof.
  split; intros db u db'.
  - destruct (app_delete_user_rows db u) as [Hposts Husers].
    fold db' in Hposts, Husers.
    set (children := map App.Post.id (App.load_posts db u)) in *.
    assert (Hchild : forall p, In p (App.posts db) ->
                       App.refers_to (App.User.id u) p = true ->
                       In (App.Post.id p) children).
    { intros p Hp Hr. apply in_map. apply filter_In. now split. }
    assert (Hgone : forall i, In i children -> ~ In i (map App.Post.id (App.posts db'))).
    { intros i Hi Hin. apply in_map_iff in Hin as (q & <- & Hq).
      rewrite Hposts in Hq. apply filter_In in Hq as [_ Hq].
      apply negb_true_iff in Hq. apply existsb_eqb_in in Hi. congruence. }
    assert (Huser : ~ In (App.User.id u) (map App.User.id (App.users db'))).
    { intros Hin. apply in_map_iff in Hin as (u' & Hid & Hin).
      rewrite Husers in Hin. apply filter_In in Hin as [_ Hne].
      rewrite Hid, Z.eqb_refl in Hne. discriminate. }
    split; [|split; [|split; [|split; [|split]]]].
    + apply filter_nothing. intros p Hp.
      destruct (App.refers_to (App.User.id u) p) eqn:Hr; [|reflexivity].
      exfalso. assert (Hp' : In p (App.posts db)).
      { rewrite Hposts in Hp. now apply filter_In in Hp. }
      apply (Hgone _ (Hchild p Hp' Hr)). now apply in_map.
    + intros p Hp Hid.
      assert (Hr : App.refers_to (App.User.id u) p = true)
        by (unfold App.refers_to; rewrite Hid; apply Z.eqb_refl).
      pose proof (Hgone _ (Hchild p Hp Hr)) as Hno.
      split; [assumption|]. intros Hin. apply Hno. now apply in_map.
    + intros p Hp. rewrite Hposts in Hp. now apply filter_In in Hp.
    + intros p Hp Hno. rewrite Hposts. apply filter_In. split; [assumption|].
      apply negb_true_iff. destruct (existsb _ children) eqn:Hex; [|reflexivity].
      apply existsb_eqb_in in Hex. contradiction.
    + assumption.
    + intros Hin. apply Huser. now apply in_map.
  - destruct (delete_user_rows db u) as (Hposts & Husers & Htags & Hlinks).
    fold db' in Hposts, Husers, Htags, Hlinks.
    set (children := map ManyToMany.Post.id (ManyToMany.load_posts db u)) in *.
    assert (Hchild : forall p, In p (ManyToMany.posts db) ->
                       ManyToMany.refers_to (ManyToMany.User.id u) p = true ->
                       In (ManyToMany.Post.id p) children).
    { intros p Hp Hr. apply in_map. apply filter_In. now split. }
    assert (Hgone : forall i, In i children ->
                      ~ In i (map ManyToMany.Post.id (ManyToMany.posts db'))).
    { intros i Hi Hin. apply in_map_iff in Hin as (q & <- & Hq).
      rewrite Hposts in Hq. apply filter_In in Hq as [_ Hq].
      apply negb_true_iff in Hq. apply existsb_eqb_in in Hi. congruence. }
    assert (Huser : ~ In (ManyToMany.User.id u)
                         (map ManyToMany.User.id (ManyToMany.users db'))).
    { intros Hin. apply in_map_iff in Hin as (u' & Hid & Hin).
      rewrite Husers in Hin. apply filter_In in Hin as [_ Hne].
      rewrite Hid, Z.eqb_refl in Hne. discriminate. }
    split; [|split; [|split; [|split; [|split; [|split]]]]].
    + apply filter_nothing. intros p Hp.
      destruct (ManyToMany.refers_to (ManyToMany.User.id u) p) eqn:Hr; [|reflexivity].
      exfalso. assert (Hp' : In p (ManyToMany.posts db)).
      { rewrite Hposts in Hp. now apply filter_In in Hp. }
      apply (Hgone _ (Hchild p Hp' Hr)). now apply in_map.
    + intros p Hp Hid.
      assert (Hr : ManyToMany.refers_to (ManyToMany.User.id u) p = true)
        by (unfold ManyToMany.refers_to; rewrite Hid; apply Z.eqb_refl).
      pose proof (Hchild p Hp Hr) as Hc. pose proof (Hgone _ Hc) as Hno.
      split; [assumption|]. split.
      * intros Hin. apply Hno. now apply in_map.
      * intros l Hl Hfst. rewrite Hlinks in Hl. apply filter_In in Hl as [_ Hl].
        apply negb_true_iff in Hl. rewrite <- Hfst in Hc.
        apply existsb_eqb_in in Hc. congruence.
    + intros p Hp. rewrite Hposts in Hp. now apply filter_In in Hp.
    + intros p Hp Hno. rewrite Hposts. apply filter_In. split; [assumption|].
      apply negb_true_iff. destruct (existsb _ children) eqn:Hex; [|reflexivity].
      apply existsb_eqb_in in Hex. contradiction.
    + assumption.
    + intros Hin. apply Huser. now apply in_map.
    + assumption.
Qed.

Lemma tags_posts_symmetric_always (db : ManyToMany.database) :
  ManyToMany.tags_posts_symmetric db.
Proof.
  intros p t Hp Ht.
  rewrite TagRoutes.in_load_tags, TagRoutes.in_load_tag_posts. tauto.
Qed.

Lemma user_posts_symmetric_of_unique (db : ManyToMany.database) :
  unique (map ManyToMany.User.id (ManyToMany.users db)) = true ->
  ManyToMany.user_posts_symmetric db.
Proof.
  intros Hu u p Hin Hp. unfold ManyToMany.load_posts, ManyToMany.load_user.
  rewrite filter_In. unfold ManyToMany.refers_to.
  destruct (ManyToMany.Post.user_id p) as [k|]; split.
  - intros [_ Hk]. apply Z.eqb_eq in Hk. subst k.
    exact (find_distinct ManyToMany.User.id Z.eqb Zeqb_eq _ _ Hu Hin).
  - intros Hf. split; [assumption|].
    apply (find_key_some ManyToMany.User.id Z.eqb Zeqb_eq) in Hf as [_ ->].
    apply Z.eqb_refl.
  - intros [_ Hk]. discriminate.
  - discriminate.
Qed.

Lemma app_user_posts_symmetric_of_unique (db : App.database) :
  unique (map App.User.id (App.users db)) = true ->
  App.user_posts_symmetric db.
Proof.
  intros Hu u p Hin Hp. unfold App.load_posts, App.load_user.
  rewrite filter_In. unfold App.refers_to.
  destruct (App.Post.user_id p) as [k|]; split.
  - intros [_ Hk]. apply Z.eqb_eq in Hk. subst k.
    exact (find_distinct App.User.id Z.eqb Zeqb_eq _ _ Hu Hin).
  - intros Hf. split; [assumption|].
    apply (find_key_some App.User.id Z.eqb Zeqb_eq) in Hf as [_ ->].
    apply Z.eqb_refl.
  - intros [_ Hk]. discriminate.
  - discriminate.
Qed.

Lemma add_tag_keeps_users (db : ManyToMany.database) (pid : Z)
      (data : list (string * string)) :
  ManyToMany.users (snd (run (ManyToMany.add_tag_to_post pid data) db))
  = ManyToMany.users db.
Proof.
  destruct (TagRoutes.add_tag_outcome db pid data) as (db1 & Hdb1 & Hout).
  assert (ManyToMany.users db1 = ManyToMany.users db) as <-
      by (destruct Hdb1 as [->|(name & _ & ->)]; reflexivity).
  destruct Hout as [->|(k & ->)]; reflexivity.
Qed.

Lemma remove_tag_keeps_users (db : ManyToMany.database) (pid tid : Z) :
  ManyToMany.users (snd (run (ManyToMany.remove_tag_from_post pid tid) db))
  = ManyToMany.users db.
Proof.
  destruct (TagRoutes.remove_tag_outcome db pid tid) as [->| ->]; reflexivity.
Qed.

Lemma create_user_keeps_ids_unique (db : App.database) (data : list (string * string)) :
  unique (map App.User.id (App.users db)) = true ->
  unique (map App.User.id (App.users (snd (run (App.create_user data) db)))) = true.
Proof.
  intros Hu. destruct (subscript data "name") as [name|] eqn:Hd.
  - rewrite (UserRoutes.create_user_run db data name Hd).
    cbn [snd App.users]. rewrite map_app. cbn [map App.User.id].
    now apply unique_snoc_next_id.
  - now rewrite UserRoutes.create_user_bad_body.
Qed.

(** ** The properties at concrete requests *)

Lemma attach_attached_tag_unchanged_witness :
  let out := run (ManyToMany.add_tag_to_post 1 [("tag_name", "beginner")])
                 ManyToMany.demo in
  out = (Json 200 (ManyToMany.post_dict ManyToMany.demo ManyToMany.first_post),
         ManyToMany.demo)
  /\ ManyToMany.load_tags (snd out) 1 = ManyToMany.load_tags ManyToMany.demo 1
  /\ In ManyToMany.beginner (ManyToMany.load_tags (snd out) 1)
  /\ NoDup (map ManyToMany.Tag.id (ManyToMany.load_tags (snd out) 1)).
Proof.
  apply (TagRoutes.attach_attached_tag_unchanged
           ManyToMany.demo [("tag_name", "beginner")]
           ManyToMany.first_post ManyToMany.beginner).
  - reflexivity.
  - simpl. now left.
  - simpl. now left.
  - reflexivity.
Defined.

Lemma detach_unattached_tag_noop_witness :
  let out := run (ManyToMany.remove_tag_from_post 1 3) ManyToMany.demonstration in
  out = (Json 200 (ManyToMany.post_dict ManyToMany.demonstration
                                        ManyToMany.flask_tutorial),
         ManyToMany.demonstration)
  /\ status_of (fst out) = 200
  /\ ManyToMany.post_tags (snd out) = [(1, 1); (1, 2); (2, 1); (2, 3)]
  /\ ManyToMany.load_tags (snd out) 1
     = ManyToMany.load_tags ManyToMany.demonstration 1.
Proof.
  apply (TagRoutes.detach_unattached_tag_noop
           ManyToMany.demonstration ManyToMany.flask_tutorial ManyToMany.sqlalchemy).
  - reflexivity.
  - simpl. now left.
  - simpl. right. right. now left.
  - simpl. intros [H|[H|[]]]; discriminate H.
Defined.

Lemma missing_entity_404_witness :
  run (ManyToMany.add_tag_to_post 7 [("tag_name", "flask")]) ManyToMany.demo
  = (HttpError 404, ManyToMany.demo)
  /\ run (ManyToMany.remove_tag_from_post 7 1) ManyToMany.demo
     = (HttpError 404, ManyToMany.demo)
  /\ run (ManyToMany.remove_tag_from_post 1 9) ManyToMany.demo
     = (HttpError 404, ManyToMany.demo)
  /\ run (ManyToMany.remove_tag_from_post (2 ^ 63) 1) ManyToMany.demo
     = (HttpError 500, ManyToMany.demo).
Proof.
  assert (Hpost : forall p, In p (ManyToMany.posts ManyToMany.demo) ->
                            ManyToMany.Post.id p <> 7).
  { simpl. intros p [<-|[]]. discriminate. }
  assert (Htag : forall t, In t (ManyToMany.tags ManyToMany.demo) ->
                           ManyToMany.Tag.id t <> 9).
  { simpl. intros t [<-|[<-|[]]]; discriminate. }
  assert (Hbig : forall p, In p (ManyToMany.posts ManyToMany.demo) ->
                           ManyToMany.Post.id p <> 2 ^ 63).
  { simpl. intros p [<-|[]]. discriminate. }
  split; [|split; [|split]].
  - exact (proj1 (TagRoutes.missing_entity_404 ManyToMany.demo 7 1
                    [("tag_name", "flask")]) eq_refl Hpost).
  - exact (proj1 (proj2 (TagRoutes.missing_entity_404 ManyToMany.demo 7 1 []))
                 eq_refl eq_refl (or_introl Hpost)).
  - exact (proj1 (proj2 (TagRoutes.missing_entity_404 ManyToMany.demo 1 9 []))
                 eq_refl eq_refl (or_intror Htag)).
  - exact (proj2 (proj2 (proj2 (TagRoutes.missing_entity_404 ManyToMany.demo
                                   (2 ^ 63) 1 []))
                        eq_refl Hbig)).
Defined.

(** The post id 2^63 names no stored post of the demo data, yet the
    POST does not end in 404: the lookup itself fails and the answer is
    500. *)
Lemma missing_entity_404_counterexample :
  (forall p, In p (ManyToMany.posts ManyToMany.demo) ->
             ManyToMany.Post.id p <> 9223372036854775808)
  /\ run (ManyToMany.add_tag_to_post 9223372036854775808 [("tag_name", "flask")])
         ManyToMany.demo
     <> (HttpError 404, ManyToMany.demo)
  /\ run (ManyToMany.add_tag_to_post 9223372036854775808 [("tag_name", "flask")])
         ManyToMany.demo
     = (HttpError 500, ManyToMany.demo).
Proof.
  split; [|split].
  - simpl. intros p [<-|[]]. discriminate.
  - vm_compute. discriminate.
  - vm_compute. reflexivity.
Qed.

Lemma detach_removes_only_the_link_witness :
  let db' := snd (run (ManyToMany.remove_tag_from_post 1 1) ManyToMany.demo) in
  ManyToMany.tags db' = ManyToMany.tags ManyToMany.demo
  /\ ~ In (1, 1) (ManyToMany.post_tags db')
  /\ In (1, 2) (ManyToMany.post_tags db')
  /\ exists bodies,
       run ManyToMany.get_tags db' = (Json 200 (JArr bodies), db')
       /\ In (ManyToMany.tag_dict db' ManyToMany.beginner) bodies.
Proof.
  destruct (TagRoutes.detach_removes_only_the_link ManyToMany.demo 1 1)
    as (_ & _ & Htags & _ & Hkeep & _ & Hgone & Hget).
  split; [exact Htags|]. split; [|split].
  - exact (proj1 (Hgone ManyToMany.first_post ManyToMany.beginner eq_refl eq_refl)).
  - apply Hkeep.
    + discriminate.
    + simpl. right. now left.
  - apply Hget. simpl. now left.
Defined.

Lemma tag_find_or_create_witness :
  let out := run (ManyToMany.add_tag_to_post 1 [("tag_name", "flask")])
                 ManyToMany.demo in
  status_of (fst out) = 200
  /\ ManyToMany.tags (snd out)
     = ManyToMany.tags ManyToMany.demo
         ++ [{| ManyToMany.Tag.id := 3; ManyToMany.Tag.name := "flask" |}]
  /\ ManyToMany.unique_names (map ManyToMany.Tag.name (ManyToMany.tags (snd out)))
     = true.
Proof.
  destruct (TagRoutes.tag_find_or_create ManyToMany.demo 1 [("tag_name", "flask")])
    as [Huniq Hfind].
  destruct (Hfind ManyToMany.first_post "flask" eq_refl eq_refl) as [Hstatus Hrow].
  split; [exact Hstatus|]. split.
  - exact (proj1 Hrow).
  - apply Huniq. reflexivity.
Defined.

Lemma create_user_response_witness :
  run (App.create_user [("name", "John Doe")]) App.empty
  = (Json 201 (JObj [("id", JInt 1); ("name", JStr "John Doe"); ("posts", JArr [])]),
     {| App.users := [{| App.User.id := 1; App.User.name := "John Doe" |}];
        App.posts := [] |}).
Proof.
  exact (proj1 (UserRoutes.create_user_response
                  App.empty [("name", "John Doe")] "John Doe" eq_refl eq_refl)).
Defined.

Lemma post_to_dict_cuts_user_posts_witness :
  (exists j,
      to_dict App.demo [] (App.EPost App.first_post) = Some j
      /\ has_key "posts" j = false
      /\ field "user" j = Some (JObj [("id", JInt 1); ("name", JStr "John Doe")]))
  /\ (exists j,
      to_dict ManyToMany.demo [] (ManyToMany.EPost ManyToMany.first_post) = Some j
      /\ has_key "posts" j = false
      /\ field "user" j = Some (JObj [("id", JInt 1); ("name", JStr "John Doe")])).
Proof.
  destruct post_to_dict_cuts_user_posts as [Happ Hm2m]. split.
  - destruct (Happ App.demo App.first_post) as (j & Hj & Hcut & Huser & _).
    exists j. split; [exact Hj|]. split; [exact Hcut|].
    exact (Huser App.john eq_refl).
  - destruct (Hm2m ManyToMany.demo ManyToMany.first_post) as (j & Hj & Hcut & Huser & _).
    exists j. split; [exact Hj|]. split; [exact Hcut|].
    exact (Huser ManyToMany.john eq_refl).
Defined.

Lemma tag_to_dict_with_rule_cuts_tags_witness :
  exists j entries,
    to_dict ManyToMany.demo ["-posts.tags"] (ManyToMany.ETag ManyToMany.beginner)
    = Some j
    /\ field "posts" j = Some (JArr entries)
    /\ map (field "id") entries = [Some (JInt 1)]
    /\ forall e, In e entries -> field "tags" e = None /\ has_key "tags" e = false.
Proof.
  exact (tag_to_dict_with_rule_cuts_tags ManyToMany.demo ManyToMany.beginner).
Defined.

Lemma tag_to_dict_keeps_nested_tags_witness :
  exists j entries,
    to_dict ManyToMany.demo [] (ManyToMany.ETag ManyToMany.beginner) = Some j
    /\ field "posts" j = Some (JArr entries)
    /\ In (ManyToMany.post_dict ManyToMany.demo ManyToMany.first_post) entries
    /\ field "tags" (ManyToMany.post_dict ManyToMany.demo ManyToMany.first_post)
       = Some (JArr [JObj [("id", JInt 1); ("name", JStr "beginner")];
                     JObj [("id", JInt 2); ("name", JStr "tutorial")]]).
Proof.
  apply (tag_to_dict_keeps_nested_tags
           ManyToMany.demo ManyToMany.beginner ManyToMany.first_post).
  simpl. now left.
Defined.

Lemma delete_user_cascades_to_posts_witness :
  (let db' := committed_by (App.delete_user App.john) App.demo in
   App.posts_by_user_id db' 1 = []
   /\ ~ In 1 (map App.Post.id (App.posts db'))
   /\ ~ In 1 (map App.User.id (App.users db')))
  /\ (let db' := committed_by (ManyToMany.delete_user ManyToMany.john)
                              ManyToMany.demo in
      ManyToMany.posts_by_user_id db' 1 = []
      /\ ~ In 1 (map ManyToMany.Post.id (ManyToMany.posts db'))
      /\ (forall l, In l (ManyToMany.post_tags db') -> fst l <> 1)
      /\ ManyToMany.tags db' = ManyToMany.tags ManyToMany.demo).
Proof.
  destruct delete_user_cascades_to_posts as [Happ Hm2m]. split.
  - destruct (Happ App.demo App.john) as (Hquery & Hposts & _ & _ & Huser & _).
    split; [exact Hquery|]. split; [|exact Huser].
    exact (proj1 (Hposts App.first_post (or_introl eq_refl) eq_refl)).
  - destruct (Hm2m ManyToMany.demo ManyToMany.john)
      as (Hquery & Hposts & _ & _ & _ & _ & Htags).
    destruct (Hposts ManyToMany.first_post (or_introl eq_refl) eq_refl)
      as (Hid & _ & Hlinks).
    split; [exact Hquery|]. split; [exact Hid|]. split; [exact Hlinks|exact Htags].
Defined.

(** * Further properties of the routes *)

Lemma filter_everything {A : Type} (f : A -> bool) (l : list A) :
  (forall x, In x l -> f x = true) -> filter f l = l.
Proof.
  induction l as [|a l IH]; intros Hf; cbn [filter]; [reflexivity|].
  rewrite (Hf a (or_introl eq_refl)). f_equal. apply IH. intros x Hx. apply Hf. now right.
Qed.

Lemma subscript_none (data : list (string * string)) (key : string) :
  ~ In key (map fst data) -> subscript data key = None.
Proof.
  induction data as [|[k v] rest IH]; intros Hno; cbn [subscript]; [reflexivity|].
  destruct (String.eqb k key) eqn:Hk.
  - apply String.eqb_eq in Hk. elim Hno. now left.
  - apply IH. intros Hin. apply Hno. now right.
Qed.

(** ** Service 2, request by request *)

Module TagSessions.
Import ManyToMany ManyToManyFacts TagRoutes.

Lemma get_posts_run (db : database) :
  run get_posts db = (Json 200 (JArr (map (post_dict db) (posts db))), db).
Proof.
  unfold run, get_posts, bind, gets, or_500, ret. step.
  rewrite (mapM_map_total _ (post_dict db)) by (intros; apply to_dict_post).
  reflexivity.
Qed.

Lemma link_absent (link : Z * Z) (l : list (Z * Z)) :
  existsb (link_eqb link) l = false ->
  forall x, In x l -> negb (link_eqb link x) = true.
Proof.
  intros Hno x Hx. apply negb_true_iff.
  destruct (link_eqb link x) eqn:E; [|reflexivity].
  apply link_eqb_eq in E. subst x. apply link_present in Hx. congruence.
Qed.

Lemma not_tag_in_after_delete_link (db : database) (pid : Z) (tag : Tag.t) :
  tag_in tag (load_tags (delete_link (pid, Tag.id tag) db) pid) = false.
Proof.
  destruct (tag_in tag _) eqn:Hin; [|reflexivity].
  apply tag_in_true in Hin as (t & Hin & Hid).
  apply in_load_tags in Hin as [_ Hl]. cbn [delete_link post_tags] in Hl.
  apply filter_In in Hl as [_ Hl]. apply negb_true_iff in Hl.
  rewrite Hid in Hl.
  assert (link_eqb (pid, Tag.id tag) (pid, Tag.id tag) = true) by now apply link_eqb_eq.
  congruence.
Qed.

(** What a DELETE on a stored post and a stored tag answers and leaves. *)
Lemma remove_tag_found (db : database) (pid tid : Z) (post : Post.t) (tag : Tag.t) :
  find (fun p => Post.id p =? pid) (posts db) = Some post ->
  find (fun t => Tag.id t =? tid) (tags db) = Some tag ->
  let out := run (remove_tag_from_post pid tid) db in
  out = (Json 200 (post_dict (snd out) post), snd out)
  /\ users (snd out) = users db
  /\ posts (snd out) = posts db
  /\ tags (snd out) = tags db
  /\ post_tags (snd out)
     = filter (fun l => negb (link_eqb (pid, tid) l)) (post_tags db)
  /\ tag_in tag (load_tags (snd out) pid) = false.
Proof.
  intros Hp Ht out. subst out.
  pose proof (find_key_some Post.id Z.eqb Zeqb_eq _ _ _ Hp) as [_ Hpid].
  pose proof (find_key_some Tag.id Z.eqb Zeqb_eq _ _ _ Ht) as [Hstored Htid].
  destruct (tag_in tag (load_tags db (Post.id post))) eqn:Hin.
  - rewrite (remove_tag_attached db pid tid post tag Hp Ht Hin). cbn [snd].
    rewrite Hpid, Htid. repeat split.
    rewrite <- Htid. apply not_tag_in_after_delete_link.
  - rewrite (remove_tag_not_attached db pid tid post tag Hp Ht Hin). cbn [snd].
    repeat split.
    + symmetry. apply filter_everything. apply link_absent.
      rewrite <- Hpid, <- Htid. now apply not_attached_no_link.
    + now rewrite <- Hpid.
Qed.

(** What a POST on a stored post with a [tag_name] answers and leaves. *)
Lemma add_tag_result (db : database) (data : list (string * string))
      (post : Post.t) (name : string) :
  find (fun p => Post.id p =? Post.id post) (posts db) = Some post ->
  subscript data "tag_name" = Some name ->
  let out := run (add_tag_to_post (Post.id post) data) db in
  exists tag,
    out = (Json 200 (post_dict (snd out) post), snd out)
    /\ Tag.name tag = name
    /\ users (snd out) = users db
    /\ posts (snd out) = posts db
    /\ match find (fun t => String.eqb (Tag.name t) name) (tags db) with
       | Some t => tag = t /\ tags (snd out) = tags db
       | None => Tag.id tag = next_id (map Tag.id (tags db))
                 /\ tags (snd out) = tags db ++ [tag]
       end
    /\ (post_tags (snd out) = post_tags db
        \/ post_tags (snd out) = post_tags db ++ [(Post.id post, Tag.id tag)])
    /\ In (Post.id post, Tag.id tag) (post_tags (snd out))
    /\ In tag (tags (snd out)).
Proof.
  intros Hp Hd out. subst out.
  destruct (find (fun t => String.eqb (Tag.name t) name) (tags db)) as [tag|] eqn:Ht.
  - pose proof (find_some _ _ Ht) as [Hstored Hname]. apply String.eqb_eq in Hname.
    exists tag. destruct (tag_in tag (load_tags db (Post.id post))) eqn:Hin.
    + rewrite (add_tag_attached db data post name Hp Hd tag Ht Hin). cbn [snd].
      repeat split; auto.
      apply tag_in_true in Hin as (t & Hin & Hid).
      apply in_load_tags in Hin as [_ Hl]. now rewrite <- Hid.
    + rewrite (add_tag_attaches db data post name Hp Hd tag Ht Hin). cbn [snd].
      repeat split; auto.
      cbn. apply in_or_app. right. now left.
  - rewrite (add_tag_creates db data post name Hp Hd Ht). cbn [snd].
    set (tag := {| Tag.id := next_id (map Tag.id (tags db)); Tag.name := name |}).
    set (db1 := insert_tag tag db).
    exists tag.
    assert (Hnew : In tag (tags db1)).
    { cbn. apply in_or_app. right. now left. }
    destruct (tag_in tag (load_tags db1 (Post.id post))) eqn:Hin.
    + repeat split; auto.
      apply tag_in_true in Hin as (t & Hin & Hid).
      apply in_load_tags in Hin as [_ Hl]. now rewrite <- Hid.
    + repeat split; auto.
      cbn. apply in_or_app. right. now left.
Qed.

Lemma add_tag_finds_again (db : database) (data : list (string * string))
      (post : Post.t) (name : string) (tag : Tag.t) :
  match find (fun t => String.eqb (Tag.name t) name) (tags db) with
  | Some t => tag = t /\ tags (snd (run (add_tag_to_post (Post.id post) data) db)) = tags db
  | None => Tag.id tag = next_id (map Tag.id (tags db))
            /\ tags (snd (run (add_tag_to_post (Post.id post) data) db)) = tags db ++ [tag]
  end ->
  Tag.name tag = name ->
  find (fun t => String.eqb (Tag.name t) name)
       (tags (snd (run (add_tag_to_post (Post.id post) data) db))) = Some tag.
Proof.
  intros Hcase Hname.
  destruct (find (fun t => String.eqb (Tag.name t) name) (tags db)) as [t|] eqn:Ht.
  - destruct Hcase as [-> ->]. exact Ht.
  - destruct Hcase as [_ ->]. apply find_snoc_new; [assumption|].
    rewrite Hname. apply String.eqb_refl.
Qed.
(** A body without a [tag_name]: nothing is committed, and the answer
    is decided by the lookup of the post, which comes first: 404 when
    the post id is unknown (500 when it is beyond what an INTEGER
    column holds, for then the lookup itself fails), 500 for the missing
    key when the post is stored. *)
Theorem attach_without_tag_name (db : database) (pid : Z)
        (data : list (string * string)) :
  ~ In "tag_name" (map fst data) ->
  run (add_tag_to_post pid data) db
  = (HttpError (match find (fun p => Post.id p =? pid) (posts db) with
                | Some _ => 500
                | None => if sqlite_integer pid then 404 else 500
                end), db).
Proof.
  intros Hno. apply subscript_none in Hno.
  destruct (find (fun p => Post.id p =? pid) (posts db)) as [post|] eqn:Hp.
  - now apply add_tag_bad_body with (post := post).
  - now apply add_tag_missing_post.
Qed.

(** A POST never touches users or posts and never removes or rewrites a
    row: tags and bridge rows that were stored stay, in place, and at
    most one row is appended to each of the two tables. *)
Theorem attach_only_appends (db : database) (pid : Z) (data : list (string * string)) :
  let db' := snd (run (add_tag_to_post pid data) db) in
  users db' = users db
  /\ posts db' = posts db
  /\ exists new_tags new_links,
       tags db' = tags db ++ new_tags
       /\ post_tags db' = post_tags db ++ new_links
       /\ (List.length new_tags <= 1)%nat
       /\ (List.length new_links <= 1)%nat.
Proof.
  intros db'. subst db'.
  destruct (add_tag_outcome db pid data) as (db1 & Hdb1 & Hout).
  assert (H1 : users db1 = users db /\ posts db1 = posts db
               /\ post_tags db1 = post_tags db
               /\ exists new_tags, tags db1 = tags db ++ new_tags
                                   /\ (List.length new_tags <= 1)%nat).
  { destruct Hdb1 as [->|(name & _ & ->)].
    - repeat split. exists []. rewrite app_nil_r. split; [reflexivity|]. cbn. lia.
    - repeat split. eexists. split; [reflexivity|]. cbn. lia. }
  destruct H1 as (Hu & Hp & Hl & new_tags & Ht & Hlen).
  destruct Hout as [->|(k & ->)]; cbn [insert_link users posts tags post_tags];
    (split; [assumption|]); (split; [assumption|]); exists new_tags.
  - exists []. rewrite app_nil_r. repeat split; try assumption. cbn. lia.
  - exists [(pid, k)]. rewrite Hl. repeat split; try assumption. cbn. lia.
Qed.

(** A successful POST answers with the post as stored afterwards, and
    the tag asked for, under the name given, is among its [tags]. *)
Theorem attach_response_lists_tag (db : database) (pid : Z)
        (data : list (string * string)) (post : Post.t) (name : string) :
  find (fun p => Post.id p =? pid) (posts db) = Some post ->
  subscript data "tag_name" = Some name ->
  exists body entries tid,
    fst (run (add_tag_to_post pid data) db) = Json 200 body
    /\ field "id" body = Some (JInt pid)
    /\ field "tags" body = Some (JArr entries)
    /\ In (JObj [("id", JInt tid); ("name", JStr name)]) entries.
Proof.
  intros Hp Hd.
  pose proof (find_key_some Post.id Z.eqb Zeqb_eq _ _ _ Hp) as [_ Hid]. subst pid.
  destruct (add_tag_result db data post name Hp Hd)
    as (tag & Hout & Hname & _ & _ & _ & _ & Hlink & Hstored).
  set (db' := snd (run (add_tag_to_post (Post.id post) data) db)) in *.
  exists (post_dict db' post), (map tag_brief (load_tags db' (Post.id post))), (Tag.id tag).
  split; [now rewrite Hout|]. split; [reflexivity|]. split; [reflexivity|].
  rewrite <- Hname. change (In (tag_brief tag) (map tag_brief (load_tags db' (Post.id post)))).
  apply in_map. apply in_load_tags. now split.
Qed.

(** A DELETE on a stored post and a stored tag answers 200 with the
    post as stored afterwards, and no entry of its [tags] has the id of
    the tag, whether the tag was attached before or not. *)
Theorem detach_response_omits_tag (db : database) (pid tid : Z)
        (post : Post.t) (tag : Tag.t) :
  find (fun p => Post.id p =? pid) (posts db) = Some post ->
  find (fun t => Tag.id t =? tid) (tags db) = Some tag ->
  exists body entries,
    fst (run (remove_tag_from_post pid tid) db) = Json 200 body
    /\ field "tags" body = Some (JArr entries)
    /\ forall e, In e entries -> field "id" e <> Some (JInt tid).
Proof.
  intros Hp Ht.
  pose proof (find_key_some Post.id Z.eqb Zeqb_eq _ _ _ Hp) as [_ Hpid].
  pose proof (find_key_some Tag.id Z.eqb Zeqb_eq _ _ _ Ht) as [_ Htid].
  destruct (remove_tag_found db pid tid post tag Hp Ht) as (Hout & _ & _ & _ & _ & Hgone).
  set (db' := snd (run (remove_tag_from_post pid tid) db)) in *.
  exists (post_dict db' post), (map tag_brief (load_tags db' (Post.id post))).
  split; [now rewrite Hout|]. split; [reflexivity|].
  intros e He. apply in_map_iff in He as (t & <- & Hin).
  cbn. intros [= Hsame].
  assert (tag_in tag (load_tags db' pid) = true) as Hyes.
  { apply tag_in_true. exists t. rewrite <- Hpid. split; [assumption|]. congruence. }
  congruence.
Qed.

(** Repeating a DELETE changes nothing more than the first one did. *)
Theorem detach_twice_same (db : database) (pid tid : Z) :
  let db1 := snd (run (remove_tag_from_post pid tid) db) in
  snd (run (remove_tag_from_post pid tid) db1) = db1.
Proof.
  intros db1. subst db1.
  destruct (find (fun p => Post.id p =? pid) (posts db)) as [post|] eqn:Hp;
    [|rewrite (remove_tag_missing_post db pid tid Hp); cbn [snd];
      now rewrite (remove_tag_missing_post db pid tid Hp)].
  destruct (find (fun t => Tag.id t =? tid) (tags db)) as [tag|] eqn:Ht;
    [|rewrite (remove_tag_missing_tag db pid tid post Hp Ht); cbn [snd];
      now rewrite (remove_tag_missing_tag db pid tid post Hp Ht)].
  destruct (remove_tag_found db pid tid post tag Hp Ht) as (_ & _ & Hposts & Htags & _ & Hgone).
  set (db1 := snd (run (remove_tag_from_post pid tid) db)) in *.
  pose proof (find_key_some Post.id Z.eqb Zeqb_eq _ _ _ Hp) as [_ Hpid].
  rewrite <- Hposts in Hp. rewrite <- Htags in Ht.
  rewrite (remove_tag_not_attached db1 pid tid post tag Hp Ht); [reflexivity|].
  now rewrite Hpid.
Qed.

(** POST, then DELETE with the id of the tag that carries the name: the
    bridge table is the one before the POST without the row of the pair,
    so a tag that was not attached before leaves no trace there; the tag
    row itself stays. *)
Theorem detach_after_attach (db : database) (pid : Z)
        (data : list (string * string)) (post : Post.t) (name : string) :
  find (fun p => Post.id p =? pid) (posts db) = Some post ->
  subscript data "tag_name" = Some name ->
  let db1 := snd (run (add_tag_to_post pid data) db) in
  exists tag,
    find (fun t => String.eqb (Tag.name t) name) (tags db1) = Some tag
    /\ let out := run (remove_tag_from_post pid (Tag.id tag)) db1 in
       status_of (fst out) = 200
       /\ post_tags (snd out)
          = filter (fun l => negb (link_eqb (pid, Tag.id tag) l)) (post_tags db)
       /\ tags (snd out) = tags db1
       /\ ~ In tag (load_tags (snd out) pid).
Proof.
  intros Hp Hd db1. subst db1.
  pose proof (find_key_some Post.id Z.eqb Zeqb_eq _ _ _ Hp) as [_ Hid]. subst pid.
  destruct (add_tag_result db data post name Hp Hd)
    as (tag & _ & Hname & _ & Hposts & Hcase & Hlinks & _ & Hstored).
  pose proof (add_tag_finds_again db data post name tag Hcase Hname) as Hfound.
  set (db1 := snd (run (add_tag_to_post (Post.id post) data) db)) in *.
  exists tag. split; [assumption|].
  rewrite <- Hposts in Hp.
  destruct (find (fun t => Tag.id t =? Tag.id tag) (tags db1)) as [tag'|] eqn:Ht.
  2:{ pose proof (proj1 (find_key_none Tag.id Z.eqb Zeqb_eq _ _) Ht) as Hnone.
      now elim (Hnone tag Hstored). }
  destruct (remove_tag_found db1 (Post.id post) (Tag.id tag) post tag' Hp Ht)
    as (Hout & _ & _ & Htags & Hrows & Hgone).
  cbv zeta. split; [now rewrite Hout|]. split; [|split; [assumption|]].
  - rewrite Hrows. destruct Hlinks as [->| ->]; [reflexivity|].
    rewrite filter_app. cbn [filter].
    assert (link_eqb (Post.id post, Tag.id tag) (Post.id post, Tag.id tag) = true) as ->
        by now apply link_eqb_eq.
    cbn [negb]. apply app_nil_r.
  - intros Hin. pose proof (find_key_some Tag.id Z.eqb Zeqb_eq _ _ _ Ht) as [_ Hsame].
    assert (tag_in tag' (load_tags (snd (run (remove_tag_from_post (Post.id post) (Tag.id tag)) db1))
                                   (Post.id post)) = true) as Hyes.
    { apply tag_in_true. exists tag. split; [assumption|]. now symmetry. }
    congruence.
Qed.

(** The same name attached to two posts: the second POST adds no tag
    row, both posts carry the one tag, and the tag's [posts] hold both
    posts. *)
Theorem one_tag_row_for_two_posts (db : database) (pid1 pid2 : Z)
        (data : list (string * string)) (post1 post2 : Post.t) (name : string) :
  find (fun p => Post.id p =? pid1) (posts db) = Some post1 ->
  find (fun p => Post.id p =? pid2) (posts db) = Some post2 ->
  subscript data "tag_name" = Some name ->
  let db1 := snd (run (add_tag_to_post pid1 data) db) in
  let db2 := snd (run (add_tag_to_post pid2 data) db1) in
  exists tag,
    Tag.name tag = name
    /\ tags db2 = tags db1
    /\ In tag (load_tags db2 pid1)
    /\ In tag (load_tags db2 pid2)
    /\ In post1 (load_tag_posts db2 (Tag.id tag))
    /\ In post2 (load_tag_posts db2 (Tag.id tag)).
Proof.
  intros Hp1 Hp2 Hd db1 db2. subst db1 db2.
  pose proof (find_key_some Post.id Z.eqb Zeqb_eq _ _ _ Hp1) as [Hin1 Hid1].
  pose proof (find_key_some Post.id Z.eqb Zeqb_eq _ _ _ Hp2) as [Hin2 Hid2].
  subst pid1 pid2.
  destruct (add_tag_result db data post1 name Hp1 Hd)
    as (tag & _ & Hname & _ & Hposts1 & Hcase1 & _ & Hlink1 & Hstored1).
  pose proof (add_tag_finds_again db data post1 name tag Hcase1 Hname) as Hfound.
  set (db1 := snd (run (add_tag_to_post (Post.id post1) data) db)) in *.
  rewrite <- Hposts1 in Hp2.
  destruct (add_tag_result db1 data post2 name Hp2 Hd)
    as (tag2 & _ & _ & _ & Hposts2 & Hcase2 & Hlinks2 & Hlink2 & Hstored2).
  rewrite Hfound in Hcase2. destruct Hcase2 as [-> Htags].
  set (db2 := snd (run (add_tag_to_post (Post.id post2) data) db1)) in *.
  assert (Hkept : In (Post.id post1, Tag.id tag) (post_tags db2)).
  { destruct Hlinks2 as [->| ->]; [assumption|]. apply in_or_app. now left. }
  exists tag. split; [assumption|]. split; [assumption|].
  rewrite !in_load_tags, !in_load_tag_posts, Hposts2, Hposts1. tauto.
Qed.

Lemma attach_frame (db : database) (pid : Z) (data : list (string * string)) :
  users (snd (run (add_tag_to_post pid data) db)) = users db
  /\ posts (snd (run (add_tag_to_post pid data) db)) = posts db
  /\ exists new_tags,
       tags (snd (run (add_tag_to_post pid data) db)) = tags db ++ new_tags.
Proof.
  destruct (add_tag_outcome db pid data) as (db1 & Hdb1 & Hout).
  assert (H1 : users db1 = users db /\ posts db1 = posts db
               /\ exists new_tags, tags db1 = tags db ++ new_tags).
  { destruct Hdb1 as [->|(name & _ & ->)].
    - repeat split. exists []. now rewrite app_nil_r.
    - repeat split. eexists. reflexivity. }
  destruct Hout as [->|(k & ->)]; exact H1.
Qed.

(** *** Any sequence of requests *)

(** Whatever requests are served, in whatever order: the constraints of
    the schema still hold, users and posts are the rows they were, and
    the tags that were stored are still there, unchanged, at the head of
    the table. *)
Theorem serve_all_keeps_schema (rs : list request) (db : database) :
  wf db = true ->
  let db' := serve_all rs db in
  wf db' = true
  /\ users db' = users db
  /\ posts db' = posts db
  /\ exists new_tags, tags db' = tags db ++ new_tags.
Proof.
  revert db. induction rs as [|r rs IH]; intros db Hwf; cbn [serve_all].
  - repeat split; [assumption|]. exists []. now rewrite app_nil_r.
  - set (db1 := snd (run (route r) db)).
    assert (H1 : wf db1 = true /\ users db1 = users db /\ posts db1 = posts db
                 /\ exists new_tags, tags db1 = tags db ++ new_tags).
    { subst db1. destruct r as [pid data|pid tid| |]; cbn [route].
      - split; [now apply add_tag_keeps_wf|].
        destruct (attach_frame db pid data) as (Hu & Hp & Ht). auto.
      - split; [now apply remove_tag_keeps_wf|].
        destruct (remove_tag_outcome db pid tid) as [->| ->]; repeat split;
          exists []; now rewrite app_nil_r.
      - rewrite get_tags_run. repeat split; [assumption|].
        exists []. now rewrite app_nil_r.
      - rewrite get_posts_run. repeat split; [assumption|].
        exists []. now rewrite app_nil_r. }
    destruct H1 as (Hwf1 & Hu1 & Hp1 & ts1 & Ht1).
    destruct (IH db1 Hwf1) as (Hwf' & Hu' & Hp' & ts & Ht').
    split; [assumption|]. split; [congruence|]. split; [congruence|].
    exists (ts1 ++ ts). now rewrite Ht', Ht1, app_assoc.
Qed.

(** The two GET routes answer 200 with one entry per stored row, in
    table order and under the row's id, and leave the database alone. *)
Theorem get_routes_read_only (db : database) :
  (exists bodies,
      run get_tags db = (Json 200 (JArr bodies), db)
      /\ map (field "id") bodies = map (fun t => Some (JInt (Tag.id t))) (tags db)
      /\ map (field "name") bodies = map (fun t => Some (JStr (Tag.name t))) (tags db))
  /\ (exists bodies,
      run get_posts db = (Json 200 (JArr bodies), db)
      /\ map (field "id") bodies = map (fun p => Some (JInt (Post.id p))) (posts db)
      /\ map (field "title") bodies
         = map (fun p => Some (JStr (Post.title p))) (posts db)).
Proof.
  split.
  - exists (map (tag_dict db) (tags db)). split; [apply get_tags_run|].
    rewrite !map_map. split; reflexivity.
  - exists (map (post_dict db) (posts db)). split; [apply get_posts_run|].
    rewrite !map_map. split; reflexivity.
Qed.
End TagSessions.

(** ** Service 1, request by request *)

Lemma next_id_pred_in (ids : list Z) : ids <> [] -> In (next_id ids - 1) ids.
Proof.
  destruct ids as [|a rest]; [congruence|]. intros _. unfold next_id.
  replace (1 + fold_right Z.max a rest - 1) with (fold_right Z.max a rest) by lia.
  revert a. induction rest as [|b rest IH]; intros a; cbn [fold_right].
  - now left.
  - destruct (Z.max_spec b (fold_right Z.max a rest)) as [[_ ->]|[_ ->]].
    + destruct (IH a) as [Ha|Hr]; [now left|right; now right].
    + right. now left.
Qed.

(** The id after a row that took the next id is one higher. *)
Lemma next_id_snoc (ids : list Z) :
  next_id (ids ++ [next_id ids]) = next_id ids + 1.
Proof.
  set (n := next_id ids).
  assert (Hin : In n (ids ++ [n])) by (apply in_or_app; right; now left).
  pose proof (next_id_fresh _ _ Hin) as Hlt.
  assert (Hne : ids ++ [n] <> []) by (destruct ids; discriminate).
  pose proof (next_id_pred_in _ Hne) as Hpred.
  apply in_app_or in Hpred as [Hold|[Heq|[]]].
  - apply next_id_fresh in Hold. fold n in Hold. lia.
  - lia.
Qed.

Module UserSessions.
Import App AppFacts UserRoutes.

Lemma get_users_run (db : database) :
  run get_users db = (Json 200 (JArr (map (user_dict db) (users db))), db).
Proof.
  unfold run, get_users, bind, gets, or_500, ret. step.
  rewrite (mapM_map_total _ (user_dict db)) by (intros; apply to_dict_app_user).
  reflexivity.
Qed.

(** GET /users answers 200 with one entry per stored user, in table
    order, under the user's id and name, and leaves the database alone. *)
Theorem get_users_read_only (db : database) :
  exists bodies,
    run get_users db = (Json 200 (JArr bodies), db)
    /\ map (field "id") bodies = map (fun u => Some (JInt (User.id u))) (users db)
    /\ map (field "name") bodies = map (fun u => Some (JStr (User.name u))) (users db).
Proof.
  exists (map (user_dict db) (users db)). split; [apply get_users_run|].
  rewrite !map_map. split; reflexivity.
Qed.

(** A body without a [name]: the request ends in 500 and no user is
    stored. *)
Theorem create_user_without_name (db : database) (data : list (string * string)) :
  ~ In "name" (map fst data) ->
  run (create_user data) db = (HttpError 500, db).
Proof.
  intros Hno. apply create_user_bad_body. now apply subscript_none.
Qed.

(** After a successful POST /users, GET /users lists what it listed
    before, entry for entry, followed by the new user with the id and the
    name the POST answered and no posts. *)
Theorem create_then_list (db : database) (data : list (string * string)) (s : string) :
  fk_ok db = true ->
  subscript data "name" = Some s ->
  let db1 := snd (run (create_user data) db) in
  exists before,
    run get_users db = (Json 200 (JArr before), db)
    /\ run get_users db1
       = (Json 200 (JArr (before
                          ++ [JObj [("id", JInt (next_id (map User.id (users db))));
                                    ("name", JStr s); ("posts", JArr [])]])),
          db1).
Proof.
  intros Hfk Hd db1. subst db1.
  exists (map (user_dict db) (users db)). split; [apply get_users_run|].
  rewrite (create_user_run db data s Hd). cbn [snd].
  rewrite get_users_run. cbn [users]. rewrite map_app. cbn [map].
  do 3 f_equal. unfold user_dict at 2, load_posts. cbn [User.id User.name posts].
  now rewrite (no_posts_for_next_id db Hfk).
Qed.

(** POST /users is not idempotent: the same body sent twice stores two
    users of that name, the second under the id after the first. *)
Theorem create_same_name_twice (db : database) (data : list (string * string))
        (s : string) :
  subscript data "name" = Some s ->
  let db2 := snd (run (create_user data) (snd (run (create_user data) db))) in
  exists u1 u2,
    users db2 = users db ++ [u1; u2]
    /\ User.name u1 = s /\ User.name u2 = s
    /\ User.id u1 = next_id (map User.id (users db))
    /\ User.id u2 = User.id u1 + 1.
Proof.
  intros Hd db2. subst db2.
  rewrite (create_user_run db data s Hd). cbn [snd].
  rewrite (create_user_run _ data s Hd). cbn [snd users].
  eexists. eexists. split; [now rewrite <- app_assoc|].
  cbn [User.name User.id]. repeat split.
  rewrite map_app. cbn [map User.id]. apply next_id_snoc.
Qed.

Lemma create_user_frame (db : database) (data : list (string * string)) :
  posts (snd (run (create_user data) db)) = posts db
  /\ exists new_users, users (snd (run (create_user data) db)) = users db ++ new_users.
Proof.
  destruct (subscript data "name") as [name|] eqn:Hd.
  - rewrite (create_user_run db data name Hd). cbn [snd users posts].
    split; [reflexivity|]. eexists. reflexivity.
  - rewrite (create_user_bad_body db data Hd). cbn [snd].
    split; [reflexivity|]. exists []. now rewrite app_nil_r.
Qed.

(** Whatever requests are served, in whatever order: the constraints of
    the schema still hold, no post is touched, and the users that were
    stored are still there, unchanged, at the head of the table. *)
Theorem app_serve_all_keeps_schema (rs : list request) (db : database) :
  wf db = true ->
  let db' := serve_all rs db in
  wf db' = true
  /\ posts db' = posts db
  /\ exists new_users, users db' = users db ++ new_users.
Proof.
  revert db. induction rs as [|r rs IH]; intros db Hwf; cbn [serve_all].
  - repeat split; [assumption|]. exists []. now rewrite app_nil_r.
  - set (db1 := snd (run (route r) db)).
    assert (H1 : wf db1 = true /\ posts db1 = posts db
                 /\ exists new_users, users db1 = users db ++ new_users).
    { subst db1. destruct r as [|data]; cbn [route].
      - rewrite get_users_run. repeat split; [assumption|].
        exists []. now rewrite app_nil_r.
      - split; [now apply create_user_keeps_wf|]. apply create_user_frame. }
    destruct H1 as (Hwf1 & Hp1 & us1 & Hu1).
    destruct (IH db1 Hwf1) as (Hwf' & Hp' & us & Hu').
    split; [assumption|]. split; [congruence|].
    exists (us1 ++ us). now rewrite Hu', Hu1, app_assoc.
Qed.

Lemma serve_all_cons (r : request) (rs : list request) (db : database) :
  serve_all (r :: rs) db = serve_all rs (snd (run (route r) db)).
Proof. reflexivity. Qed.

Lemma serve_creations (names : list string) (db : database) :
  map User.id (users db) = map Z.of_nat (seq 1 (List.length (users db))) ->
  let db' := serve_all (map (fun s => POST_users [("name", s)]) names) db in
  map User.name (users db') = map User.name (users db) ++ names
  /\ map User.id (users db')
     = map Z.of_nat (seq 1 (List.length (users db) + List.length names))
  /\ posts db' = posts db.
Proof.
  revert db. induction names as [|s names IH]; intros db Hids.
  - cbn [map serve_all]. rewrite app_nil_r, Nat.add_0_r. auto.
  - rewrite map_cons, serve_all_cons. unfold route at 1.
    rewrite (create_user_run db [("name", s)] s eq_refl). cbn [snd].
    set (u := {| User.id := next_id (map User.id (users db)); User.name := s |}).
    set (db1 := {| users := users db ++ [u]; posts := posts db |}).
    assert (Hnext : next_id (map User.id (users db))
                    = Z.of_nat (S (List.length (users db)))).
    { rewrite Hids. destruct (users db) as [|u0 us]; [reflexivity|].
      set (k := List.length (u0 :: us)).
      assert (Hk : (1 <= k)%nat) by (cbn; lia).
      assert (Hin : In (Z.of_nat k) (map Z.of_nat (seq 1 k))).
      { apply in_map. apply in_seq. lia. }
      apply next_id_fresh in Hin.
      assert (Hne : map Z.of_nat (seq 1 k) <> []).
      { destruct k; [lia|]. discriminate. }
      apply next_id_pred_in in Hne. apply in_map_iff in Hne as (i & Hi & Hseq).
      apply in_seq in Hseq. lia. }
    assert (Hids1 : map User.id (users db1)
                    = map Z.of_nat (seq 1 (List.length (users db1)))).
    { cbn [db1 users]. rewrite map_app, length_app. cbn [map User.id u List.length].
      rewrite Nat.add_1_r, seq_S, map_app, Hnext.
      apply (f_equal2 (@app Z)); [exact Hids|reflexivity]. }
    destruct (IH db1 Hids1) as (Hn & Hi & Hp).
    split; [|split].
    + rewrite Hn. cbn [db1 users]. rewrite map_app, <- app_assoc. reflexivity.
    + rewrite Hi. cbn [db1 users]. rewrite length_app. cbn [List.length].
      do 2 f_equal. lia.
    + exact Hp.
Qed.

(** On an empty database, users created one after the other are stored
    in the order of creation under the ids 1, 2, 3, ... *)
Theorem ids_count_from_one (names : list string) :
  let db := serve_all (map (fun s => POST_users [("name", s)]) names) empty in
  map User.name (users db) = names
  /\ map User.id (users db) = map Z.of_nat (seq 1 (List.length names))
  /\ posts db = [].
Proof.
  exact (serve_creations names empty eq_refl).
Qed.
End UserSessions.

(** ** How deep serialization goes *)

Lemma serialize_post_cut_user (n : nat) (db : ManyToMany.database)
      (p : ManyToMany.Post.t) :
  serialize (S (S n)) db [["user"]] (ManyToMany.EPost p)
  = Some (ManyToMany.post_under_user db p).
Proof.
  rewrite serialize_S.
  cbn -[serialize ManyToMany.load_tags ManyToMany.load_user].
  rows_total ManyToMany.tag_brief ManyToManyFacts.serialize_tag_cut.
  reflexivity.
Qed.

Lemma serialize_user_of_service_2 (n : nat) (db : ManyToMany.database)
      (u : ManyToMany.User.t) :
  serialize (S (S (S n))) db [] (ManyToMany.EUser u)
  = Some (ManyToMany.user_dict db u).
Proof.
  rewrite serialize_S.
  cbn -[serialize ManyToMany.load_posts].
  rows_total (ManyToMany.post_under_user db) serialize_post_cut_user.
  reflexivity.
Qed.

(** With the rules as the classes declare them, no row of any table
    sends [to_dict] into a reference cycle: whatever the database holds,
    a user, post or tag is serialized within two levels of nesting in
    service 1 and three in service 2, more room changes nothing, and
    [to_dict] returns that mapping. *)
Theorem to_dict_depth_bounded :
  (forall (db : App.database) (e : App.entity) (n : nat),
      serialize 2 db [] e <> None
      /\ serialize (2 + n) db [] e = serialize 2 db [] e
      /\ to_dict db [] e = serialize 2 db [] e)
  /\ (forall (db : ManyToMany.database) (e : ManyToMany.entity) (n : nat),
      serialize 3 db [] e <> None
      /\ serialize (3 + n) db [] e = serialize 3 db [] e
      /\ to_dict db [] e = serialize 3 db [] e).
Proof.
  split; intros db e n.
  - assert (H : forall k, serialize (2 + k) db [] e = serialize 2 db [] e
                          /\ serialize 2 db [] e <> None).
    { intros k. destruct e as [u|p].
      + change (2 + k)%nat with (S (S k)).
        rewrite (AppFacts.serialize_app_user k), (AppFacts.serialize_app_user 0).
        split; [reflexivity|discriminate].
      + change (2 + k)%nat with (S (S k)).
        rewrite (AppFacts.serialize_app_post k), (AppFacts.serialize_app_post 0).
        split; [reflexivity|discriminate]. }
    split; [apply (H 0%nat)|]. split; [apply H|]. exact (proj1 (H 998%nat)).
  - assert (H : forall k, serialize (3 + k) db [] e = serialize 3 db [] e
                          /\ serialize 3 db [] e <> None).
    { intros k. destruct e as [u|p|t].
      + change (3 + k)%nat with (S (S (S k))).
        rewrite (serialize_user_of_service_2 k), (serialize_user_of_service_2 0).
        split; [reflexivity|discriminate].
      + change (3 + k)%nat with (S (S (S k))).
        rewrite (ManyToManyFacts.serialize_post (S k)), (ManyToManyFacts.serialize_post 1).
        split; [reflexivity|discriminate].
      + change (3 + k)%nat with (S (S (S k))).
        rewrite (ManyToManyFacts.serialize_tag k), (ManyToManyFacts.serialize_tag 0).
        split; [reflexivity|discriminate]. }
    split; [apply (H 0%nat)|]. split; [apply H|]. exact (proj1 (H 997%nat)).
Qed.

(** ** The further properties at concrete requests *)

Lemma attach_without_tag_name_witness :
  run (ManyToMany.add_tag_to_post 1 [("name", "flask")]) ManyToMany.demo
  = (HttpError 500, ManyToMany.demo)
  /\ run (ManyToMany.add_tag_to_post 7 []) ManyToMany.demo
     = (HttpError 404, ManyToMany.demo)
  /\ run (ManyToMany.add_tag_to_post (2 ^ 63) []) ManyToMany.demo
     = (HttpError 500, ManyToMany.demo).
Proof.
  split; [|split].
  - apply (TagSessions.attach_without_tag_name ManyToMany.demo 1 [("name", "flask")]).
    simpl. intros [H|[]]. discriminate H.
  - apply (TagSessions.attach_without_tag_name ManyToMany.demo 7 []).
    simpl. tauto.
  - apply (TagSessions.attach_without_tag_name ManyToMany.demo (2 ^ 63) []).
    simpl. tauto.
Defined.

Lemma attach_response_lists_tag_witness :
  exists body entries tid,
    fst (run (ManyToMany.add_tag_to_post 1 [("tag_name", "flask")]) ManyToMany.demo)
    = Json 200 body
    /\ field "id" body = Some (JInt 1)
    /\ field "tags" body = Some (JArr entries)
    /\ In (JObj [("id", JInt tid); ("name", JStr "flask")]) entries.
Proof.
  exact (TagSessions.attach_response_lists_tag
           ManyToMany.demo 1 [("tag_name", "flask")] ManyToMany.first_post "flask"
           eq_refl eq_refl).
Defined.

Lemma detach_response_omits_tag_witness :
  exists body entries,
    fst (run (ManyToMany.remove_tag_from_post 1 1) ManyToMany.demo) = Json 200 body
    /\ field "tags" body = Some (JArr entries)
    /\ forall e, In e entries -> field "id" e <> Some (JInt 1).
Proof.
  exact (TagSessions.detach_response_omits_tag
           ManyToMany.demo 1 1 ManyToMany.first_post ManyToMany.beginner
           eq_refl eq_refl).
Defined.

Lemma detach_after_attach_witness :
  let db1 := snd (run (ManyToMany.add_tag_to_post 1 [("tag_name", "flask")])
                      ManyToMany.demo) in
  exists tag,
    find (fun t => String.eqb (ManyToMany.Tag.name t) "flask") (ManyToMany.tags db1)
    = Some tag
    /\ let out := run (ManyToMany.remove_tag_from_post 1 (ManyToMany.Tag.id tag)) db1 in
       status_of (fst out) = 200
       /\ ManyToMany.post_tags (snd out)
          = filter (fun l => negb (ManyToMany.link_eqb (1, ManyToMany.Tag.id tag) l))
                   (ManyToMany.post_tags ManyToMany.demo)
       /\ ManyToMany.tags (snd out) = ManyToMany.tags db1
       /\ ~ In tag (ManyToMany.load_tags (snd out) 1).
Proof.
  exact (TagSessions.detach_after_attach
           ManyToMany.demo 1 [("tag_name", "flask")] ManyToMany.first_post "flask"
           eq_refl eq_refl).
Defined.

Lemma one_tag_row_for_two_posts_witness :
  let db1 := snd (run (ManyToMany.add_tag_to_post 1 [("tag_name", "Docker")])
                      ManyToMany.demonstration) in
  let db2 := snd (run (ManyToMany.add_tag_to_post 2 [("tag_name", "Docker")]) db1) in
  exists tag,
    ManyToMany.Tag.name tag = "Docker"
    /\ ManyToMany.tags db2 = ManyToMany.tags db1
    /\ In tag (ManyToMany.load_tags db2 1)
    /\ In tag (ManyToMany.load_tags db2 2)
    /\ In ManyToMany.flask_tutorial (ManyToMany.load_tag_posts db2 (ManyToMany.Tag.id tag))
    /\ In {| ManyToMany.Post.id := 2; ManyToMany.Post.title := "SQLAlchemy Guide";
             ManyToMany.Post.content := "Learn SQLAlchemy...";
             ManyToMany.Post.user_id := None |}
          (ManyToMany.load_tag_posts db2 (ManyToMany.Tag.id tag)).
Proof.
  exact (TagSessions.one_tag_row_for_two_posts
           ManyToMany.demonstration 1 2 [("tag_name", "Docker")]
           ManyToMany.flask_tutorial _ "Docker" eq_refl eq_refl eq_refl).
Defined.

Lemma serve_all_keeps_schema_witness :
  let db' := ManyToMany.serve_all
               [ManyToMany.POST_post_tags 1 [("tag_name", "flask")];
                ManyToMany.GET_tags;
                ManyToMany.DELETE_post_tag 1 2;
                ManyToMany.POST_post_tags 9 [("tag_name", "lost")];
                ManyToMany.GET_posts]
               ManyToMany.demo in
  ManyToMany.wf db' = true
  /\ ManyToMany.users db' = ManyToMany.users ManyToMany.demo
  /\ ManyToMany.posts db' = ManyToMany.posts ManyToMany.demo
  /\ exists new_tags,
       ManyToMany.tags db' = ManyToMany.tags ManyToMany.demo ++ new_tags.
Proof.
  apply (TagSessions.serve_all_keeps_schema _ ManyToMany.demo). reflexivity.
Defined.

Lemma create_user_without_name_witness :
  run (App.create_user [("title", "John Doe")]) App.demo = (HttpError 500, App.demo).
Proof.
  apply (UserSessions.create_user_without_name App.demo [("title", "John Doe")]).
  simpl. intros [H|[]]. discriminate H.
Defined.

Lemma create_then_list_witness :
  let db1 := snd (run (App.create_user [("name", "Jane Doe")]) App.demo) in
  exists before,
    run App.get_users App.demo = (Json 200 (JArr before), App.demo)
    /\ run App.get_users db1
       = (Json 200 (JArr (before
                          ++ [JObj [("id", JInt 2); ("name", JStr "Jane Doe");
                                    ("posts", JArr [])]])),
          db1).
Proof.
  exact (UserSessions.create_then_list App.demo [("name", "Jane Doe")] "Jane Doe"
           eq_refl eq_refl).
Defined.

Lemma create_same_name_twice_witness :
  let db2 := snd (run (App.create_user [("name", "John Doe")])
                      (snd (run (App.create_user [("name", "John Doe")]) App.empty))) in
  exists u1 u2,
    App.users db2 = [u1; u2]
    /\ App.User.name u1 = "John Doe" /\ App.User.name u2 = "John Doe"
    /\ App.User.id u1 = 1
    /\ App.User.id u2 = App.User.id u1 + 1.
Proof.
  exact (UserSessions.create_same_name_twice App.empty [("name", "John Doe")]
           "John Doe" eq_refl).
Defined.

Lemma app_serve_all_keeps_schema_witness :
  let db' := App.serve_all
               [App.POST_users [("name", "Jane Doe")]; App.GET_users;
                App.POST_users []; App.POST_users [("name", "Jane Doe")]]
               App.demo in
  App.wf db' = true
  /\ App.posts db' = App.posts App.demo
  /\ exists new_users, App.users db' = App.users App.demo ++ new_users.
Proof.
  apply (UserSessions.app_serve_all_keeps_schema _ App.demo). reflexivity.
Defined.

(** * The relationships as declared *)

Lemma filter_of_map {A B : Type} (f : B -> bool) (g : A -> B) (l : list A) :
  filter f (map g l) = map g (filter (fun a => f (g a)) l).
Proof.
  induction l as [|a l IH]; cbn [map filter]; [reflexivity|].
  destruct (f (g a)); cbn [map]; now rewrite IH.
Qed.

Lemma find_of_map {A B : Type} (f : B -> bool) (g : A -> B) (l : list A) :
  find f (map g l) = option_map g (find (fun a => f (g a)) l).
Proof.
  induction l as [|a l IH]; cbn [map find]; [reflexivity|].
  destruct (f (g a)); [reflexivity|exact IH].
Qed.

Lemma in_map_injective {A B : Type} (g : A -> B) (l : list A) (a : A) :
  (forall x y, g x = g y -> x = y) -> In (g a) (map g l) <-> In a l.
Proof.
  intros Hinj. split.
  - intros Hin. apply in_map_iff in Hin as (x & Hx & Hin).
    apply Hinj in Hx. now subst.
  - apply in_map.
Qed.

Module Declared.
Import ManyToMany.

(** [post.tags], as the routes and the serializer load it, is the
    attribute the declaration [Post.tags] describes; likewise for the
    other three relationships. *)
Lemma related_post_tags (db : database) (p : Post.t) :
  related db Post.tags (EPost p) = map ETag (load_tags db (Post.id p)).
Proof.
  unfold related, load_tags. cbn -[Z.eqb].
  induction (post_tags db) as [|[a b] links IH]; cbn -[Z.eqb]; [reflexivity|].
  rewrite map_app, IH. f_equal.
  destruct (a =? Post.id p); [|reflexivity].
  now rewrite filter_of_map.
Qed.

Lemma related_tag_posts (db : database) (t : Tag.t) :
  related db Tag.posts (ETag t) = map EPost (load_tag_posts db (Tag.id t)).
Proof.
  unfold related, load_tag_posts. cbn -[Z.eqb].
  induction (post_tags db) as [|[a b] links IH]; cbn -[Z.eqb]; [reflexivity|].
  rewrite map_app, IH. f_equal.
  destruct (b =? Tag.id t); [|reflexivity].
  now rewrite filter_of_map.
Qed.

Lemma related_user_posts (db : database) (u : User.t) :
  related db User.posts (EUser u) = map EPost (load_posts db u).
Proof.
  unfold related, load_posts. cbn -[Z.eqb].
  rewrite filter_of_map. reflexivity.
Qed.

Lemma related_post_user (db : database) (p : Post.t) :
  related db Post.user (EPost p)
  = match load_user db p with
    | Some u => [EUser u]
    | None => []
    end.
Proof.
  unfold related, load_user. cbn -[Z.eqb].
  destruct (Post.user_id p) as [k|]; [|reflexivity].
  rewrite find_of_map. cbn -[Z.eqb].
  now destruct (find _ (users db)).
Qed.
End Declared.

Module DeclaredApp.
Import App.

Lemma related_app_user_posts (db : database) (u : User.t) :
  related db User.posts (EUser u) = map EPost (load_posts db u).
Proof.
  unfold related, load_posts. cbn -[Z.eqb].
  rewrite filter_of_map. reflexivity.
Qed.

Lemma related_app_post_user (db : database) (p : Post.t) :
  related db Post.user (EPost p)
  = match load_user db p with
    | Some u => [EUser u]
    | None => []
    end.
Proof.
  unfold related, load_user. cbn -[Z.eqb].
  destruct (Post.user_id p) as [k|]; [|reflexivity].
  rewrite find_of_map. cbn -[Z.eqb].
  now destruct (find _ (users db)).
Qed.
End DeclaredApp.

(** ** Back-references after the routes *)

Lemma tags_posts_paired_always (db : ManyToMany.database) :
  ManyToMany.tags_posts_paired db.
Proof.
  intros p t Hp Ht.
  rewrite Declared.related_post_tags, Declared.related_tag_posts.
  rewrite (in_map_injective ManyToMany.ETag), (in_map_injective ManyToMany.EPost)
    by (intros x y [= ->]; reflexivity).
  now apply tags_posts_symmetric_always.
Qed.

Lemma user_posts_paired_of_unique (db : ManyToMany.database) :
  unique (map ManyToMany.User.id (ManyToMany.users db)) = true ->
  ManyToMany.user_posts_paired db.
Proof.
  intros Hu u p Hin Hp.
  rewrite Declared.related_user_posts, Declared.related_post_user.
  rewrite (in_map_injective ManyToMany.EPost) by (intros x y [= ->]; reflexivity).
  rewrite (user_posts_symmetric_of_unique db Hu u p Hin Hp).
  destruct (ManyToMany.load_user db p) as [u'|]; split; congruence.
Qed.

Lemma app_user_posts_paired_of_unique (db : App.database) :
  unique (map App.User.id (App.users db)) = true ->
  App.user_posts_paired db.
Proof.
  intros Hu u p Hin Hp.
  rewrite DeclaredApp.related_app_user_posts, DeclaredApp.related_app_post_user.
  rewrite (in_map_injective App.EPost) by (intros x y [= ->]; reflexivity).
  rewrite (app_user_posts_symmetric_of_unique db Hu u p Hin Hp).
  destruct (App.load_user db p) as [u'|]; split; congruence.
Qed.

(** [C7] The four relationship declarations pair up through
    [back_populates], and after a tag attach, a tag detach or a user
    creation on a database that meets the schema's constraints the
    attributes they describe mirror each other on the stored rows: a tag
    is among a post's [tags] exactly when the post is among the tag's
    [posts], and a post is among a user's [posts] exactly when the post's
    [user] is that user.  The routes move both sides together: after an
    attach the tag is among the post's tags and the post among the tag's
    posts, after a detach neither holds, and a new user has no posts and
    is no post's user. *)
Theorem backrefs_symmetric_after_routes :
  (ManyToMany.declarations_paired = true /\ App.declarations_paired = true)
  /\ (forall (db : ManyToMany.database) (pid : Z) (data : list (string * string)),
      ManyToMany.wf db = true ->
      let db' := snd (run (ManyToMany.add_tag_to_post pid data) db) in
      ManyToMany.tags_posts_paired db'
      /\ ManyToMany.user_posts_paired db'
      /\ forall post name,
           find (fun p => ManyToMany.Post.id p =? pid) (ManyToMany.posts db) = Some post ->
           subscript data "tag_name" = Some name ->
           exists tag,
             ManyToMany.Tag.name tag = name
             /\ In post (ManyToMany.posts db') /\ In tag (ManyToMany.tags db')
             /\ In (ManyToMany.ETag tag)
                   (related db' ManyToMany.Post.tags (ManyToMany.EPost post))
             /\ In (ManyToMany.EPost post)
                   (related db' ManyToMany.Tag.posts (ManyToMany.ETag tag)))
  /\ (forall (db : ManyToMany.database) (pid tid : Z),
      ManyToMany.wf db = true ->
      let db' := snd (run (ManyToMany.remove_tag_from_post pid tid) db) in
      ManyToMany.tags_posts_paired db'
      /\ ManyToMany.user_posts_paired db'
      /\ forall post tag,
           find (fun p => ManyToMany.Post.id p =? pid) (ManyToMany.posts db) = Some post ->
           find (fun t => ManyToMany.Tag.id t =? tid) (ManyToMany.tags db) = Some tag ->
           In post (ManyToMany.posts db') /\ In tag (ManyToMany.tags db')
           /\ ~ In (ManyToMany.ETag tag)
                   (related db' ManyToMany.Post.tags (ManyToMany.EPost post))
           /\ ~ In (ManyToMany.EPost post)
                   (related db' ManyToMany.Tag.posts (ManyToMany.ETag tag)))
  /\ (forall (db : App.database) (data : list (string * string)),
      App.wf db = true ->
      let db' := snd (run (App.create_user data) db) in
      App.user_posts_paired db'
      /\ forall s,
           subscript data "name" = Some s ->
           exists u,
             In u (App.users db') /\ App.User.name u = s
             /\ related db' App.User.posts (App.EUser u) = []
             /\ forall p, In p (App.posts db') ->
                          related db' App.Post.user (App.EPost p) <> [App.EUser u]).
Proof.
  split; [split; reflexivity|]. split; [|split].
  - intros db pid data Hwf db'. split; [apply tags_posts_paired_always|]. split.
    + apply user_posts_paired_of_unique. subst db'.
      rewrite add_tag_keeps_users. now apply TagRoutes.wf_unpack in Hwf.
    + intros post name Hp Hd.
      pose proof (find_key_some ManyToMany.Post.id Z.eqb Zeqb_eq _ _ _ Hp) as [Hin Hid].
      subst pid.
      destruct (TagSessions.add_tag_result db data post name Hp Hd)
        as (tag & _ & Hname & _ & Hposts & _ & _ & Hlink & Hstored).
      fold db' in Hposts, Hlink, Hstored.
      assert (Hin' : In post (ManyToMany.posts db')) by now rewrite Hposts.
      exists tag. split; [assumption|]. split; [assumption|]. split; [assumption|].
      rewrite Declared.related_post_tags, Declared.related_tag_posts.
      split; apply in_map;
        [apply TagRoutes.in_load_tags|apply TagRoutes.in_load_tag_posts]; now split.
  - intros db pid tid Hwf db'. split; [apply tags_posts_paired_always|]. split.
    + apply user_posts_paired_of_unique. subst db'.
      rewrite remove_tag_keeps_users. now apply TagRoutes.wf_unpack in Hwf.
    + intros post tag Hp Ht.
      pose proof (find_key_some ManyToMany.Post.id Z.eqb Zeqb_eq _ _ _ Hp) as [Hin Hpid].
      pose proof (find_key_some ManyToMany.Tag.id Z.eqb Zeqb_eq _ _ _ Ht) as [Hstored Htid].
      destruct (TagSessions.remove_tag_found db pid tid post tag Hp Ht)
        as (_ & _ & Hposts & Htags & _ & Hgone).
      fold db' in Hposts, Htags, Hgone.
      assert (Hin' : In post (ManyToMany.posts db')) by now rewrite Hposts.
      assert (Hstored' : In tag (ManyToMany.tags db')) by now rewrite Htags.
      assert (Hnot : ~ In tag (ManyToMany.load_tags db' pid)).
      { intros Hl.
        assert (ManyToMany.tag_in tag (ManyToMany.load_tags db' pid) = true) as Hyes
            by (apply TagRoutes.tag_in_true; now exists tag).
        congruence. }
      split; [assumption|]. split; [assumption|].
      rewrite Declared.related_post_tags, Declared.related_tag_posts.
      rewrite (in_map_injective ManyToMany.ETag), (in_map_injective ManyToMany.EPost)
        by (intros x y [= ->]; reflexivity).
      rewrite Hpid. split; [assumption|].
      intros Hl. apply Hnot. apply TagRoutes.in_load_tag_posts in Hl as [_ Hl].
      apply TagRoutes.in_load_tags. split; [assumption|]. now rewrite <- Hpid.
  - intros db data Hwf db'. split.
    + apply app_user_posts_paired_of_unique. apply create_user_keeps_ids_unique.
      unfold App.wf in Hwf. rewrite !andb_true_iff in Hwf. tauto.
    + intros s Hd. subst db'.
      assert (Hfk : App.fk_ok db = true)
        by (unfold App.wf in Hwf; rewrite !andb_true_iff in Hwf; tauto).
      rewrite (UserRoutes.create_user_run db data s Hd). cbn [snd].
      set (u := {| App.User.id := next_id (map App.User.id (App.users db));
                   App.User.name := s |}).
      set (db' := {| App.users := App.users db ++ [u]; App.posts := App.posts db |}).
      assert (Hnone : App.load_posts db' u = []).
      { unfold App.load_posts. cbn [db' App.posts u App.User.id].
        now apply UserRoutes.no_posts_for_next_id. }
      exists u. split; [cbn; apply in_or_app; right; now left|].
      split; [reflexivity|]. split.
      * rewrite DeclaredApp.related_app_user_posts, Hnone. reflexivity.
      * intros p Hp Hrel.
        assert (Hsym : App.user_posts_paired db').
        { apply app_user_posts_paired_of_unique.
          cbn [db' App.users]. rewrite map_app. cbn [map u App.User.id].
          apply unique_snoc_next_id.
          unfold App.wf in Hwf. rewrite !andb_true_iff in Hwf. tauto. }
        assert (Hu : In u (App.users db')) by (cbn; apply in_or_app; right; now left).
        apply (Hsym u p Hu Hp) in Hrel.
        rewrite DeclaredApp.related_app_user_posts, Hnone in Hrel. exact Hrel.
Qed.

Lemma backrefs_symmetric_after_routes_witness :
  (let db' := snd (run (ManyToMany.add_tag_to_post 1 [("tag_name", "flask")])
                       ManyToMany.demo) in
   ManyToMany.tags_posts_paired db' /\ ManyToMany.user_posts_paired db'
   /\ exists tag,
        ManyToMany.Tag.name tag = "flask"
        /\ In ManyToMany.first_post (ManyToMany.posts db')
        /\ In tag (ManyToMany.tags db')
        /\ In (ManyToMany.ETag tag)
              (related db' ManyToMany.Post.tags (ManyToMany.EPost ManyToMany.first_post))
        /\ In (ManyToMany.EPost ManyToMany.first_post)
              (related db' ManyToMany.Tag.posts (ManyToMany.ETag tag)))
  /\ (let db' := snd (run (ManyToMany.remove_tag_from_post 1 1) ManyToMany.demo) in
      ManyToMany.tags_posts_paired db' /\ ManyToMany.user_posts_paired db'
      /\ ~ In (ManyToMany.ETag ManyToMany.beginner)
              (related db' ManyToMany.Post.tags (ManyToMany.EPost ManyToMany.first_post))
      /\ ~ In (ManyToMany.EPost ManyToMany.first_post)
              (related db' ManyToMany.Tag.posts (ManyToMany.ETag ManyToMany.beginner)))
  /\ (let db' := snd (run (App.create_user [("name", "Jane Doe")]) App.demo) in
      App.user_posts_paired db'
      /\ exists u,
           In u (App.users db') /\ App.User.name u = "Jane Doe"
           /\ related db' App.User.posts (App.EUser u) = []).
Proof.
  destruct backrefs_symmetric_after_routes as (_ & Hattach & Hdetach & Hcreate).
  split; [|split].
  - destruct (Hattach ManyToMany.demo 1 [("tag_name", "flask")] eq_refl)
      as (Hm & Ho & Hmove).
    split; [exact Hm|]. split; [exact Ho|].
    exact (Hmove ManyToMany.first_post "flask" eq_refl eq_refl).
  - destruct (Hdetach ManyToMany.demo 1 1 eq_refl) as (Hm & Ho & Hmove).
    split; [exact Hm|]. split; [exact Ho|].
    exact (proj2 (proj2 (Hmove ManyToMany.first_post ManyToMany.beginner
                               eq_refl eq_refl))).
  - destruct (Hcreate App.demo [("name", "Jane Doe")] eq_refl) as (Ho & Hnew).
    split; [exact Ho|].
    destruct (Hnew "Jane Doe" eq_refl) as (u & Hu & Hname & Hposts & _).
    exists u. split; [exact Hu|]. split; [exact Hname|exact Hposts].
Defined.
